(** * LeverageGuard: claim registry, verification and payout settlement

    A shallow embedding of [contracts/leverageguard/LeverageGuardV2.sol]
    (the multi-sig revision of the LeverageGuard contract), of the claim
    path of its predecessor [contracts/leverageguard/LeverageGuard.sol],
    and the properties of submission, verification and settlement.

    Conventions of the embedding:
    - [uint256] values are integers in [Z]; Solidity 0.8 arithmetic is
      checked, so an operation that leaves the range aborts the call with
      [Panic 0x11] instead of wrapping.
    - a [mapping] is a total function with the default value everywhere it
      was never written ([false], [0], the empty record array).
    - a call either returns a value and a new storage, or reverts; a revert
      carries the reason string of the failed [require] and leaves the
      storage the caller sees exactly as it was.
    - [emit] statements do not touch storage and are left out.  *)

From Stdlib Require Import ZArith Lia Bool String.
From stdpp Require Import base functions list.

Open Scope Z_scope.

(** ** Checked machine arithmetic and the revert monad *)

Definition address := Z.

Definition MAX_UINT256 : Z := 2 ^ 256 - 1.

Inductive Failure : Type :=
| Revert (reason : string)
| Panic (code : Z).

Inductive Result (A : Type) : Type :=
| Ok (a : A)
| Err (e : Failure).

Arguments Ok {A} a.
Arguments Err {A} e.
Arguments Revert reason%_string.

(** Arithmetic overflow / underflow and array index panics of Solidity 0.8. *)
Definition ARITHMETIC_PANIC : Failure := Panic 17.
Definition INDEX_PANIC : Failure := Panic 50.

Section RevertMonad.
Context {St : Type}.

Definition M (A : Type) : Type := St -> Result (A * St).

Definition ret {A} (a : A) : M A := fun s => Ok (a, s).

Definition bind {A B} (c : M A) (k : A -> M B) : M B :=
  fun s => match c s with
           | Ok (a, s') => k a s'
           | Err e => Err e
           end.

Definition fail {A} (e : Failure) : M A := fun _ => Err e.

Definition gets {A} (f : St -> A) : M A := fun s => Ok (f s, s).

Definition modify (f : St -> St) : M unit := fun s => Ok (tt, f s).

Definition require (b : bool) (reason : string) : M unit :=
  if b then ret tt else fail (Revert reason).

Definition checked_add (a b : Z) : M Z :=
  if a + b <=? MAX_UINT256 then ret (a + b) else fail ARITHMETIC_PANIC.

Definition checked_sub (a b : Z) : M Z :=
  if b <=? a then ret (a - b) else fail ARITHMETIC_PANIC.

Definition checked_mul (a b : Z) : M Z :=
  if a * b <=? MAX_UINT256 then ret (a * b) else fail ARITHMETIC_PANIC.
End RevertMonad.

Arguments M St A : clear implicits.
Arguments require {St} b reason%_string.

Notation "x <- c ;; k" := (bind c (fun x => k))
  (at level 100, c at next level, right associativity).
Notation "c ;; k" := (bind c (fun _ => k))
  (at level 100, right associativity).

(** The storage a caller observes after a call: the new one when the call
    returned, the old one when it reverted. *)
Definition storage_after {St A} (s : St) (r : Result (A * St)) : St :=
  match r with
  | Ok (_, s') => s'
  | Err _ => s
  end.

Definition succeeded {St A} (r : Result (A * St)) : bool :=
  match r with
  | Ok _ => true
  | Err _ => false
  end.

(** ** Error kinds of the specification, as the contract reports them *)

Definition ReentrancyError : Failure := Revert "Reentrant call".
Definition PausedError : Failure := Revert "Contract paused".
Definition DuplicateClaimError : Failure := Revert "Order already claimed".
Definition NotFoundError : Failure := Revert "Order not claimed".
Definition NotVerifiedError : Failure := Revert "Not verified".
Definition InsufficientBalanceError : Failure :=
  Revert "Insufficient contract balance".

Module LeverageGuardV2.

(** ** Storage *)

Record PayoutRecord : Type := {
  orderId : Z;
  amount : Z;
  timestamp : Z;
  verified : bool
}.

Record UserPayouts : Type := {
  records : list PayoutRecord;
  orderIdToIndex : Z -> Z
}.

Record State : Type := {
  owner : address;
  liquidationThreshold : Z;
  feePercentage : Z;
  whitelistedUsers : address -> bool;
  blacklistedUsers : address -> bool;
  contractBalance : Z;
  locked : bool;
  paused : bool;
  multiSigWallets : list address;
  minSignatures : Z;
  userPayouts : address -> UserPayouts;
  claimedOrders : address -> Z -> bool
}.

Definition set_owner (v : address) (s : State) : State :=
  {| owner := v; liquidationThreshold := liquidationThreshold s;
     feePercentage := feePercentage s; whitelistedUsers := whitelistedUsers s;
     blacklistedUsers := blacklistedUsers s; contractBalance := contractBalance s;
     locked := locked s; paused := paused s; multiSigWallets := multiSigWallets s;
     minSignatures := minSignatures s; userPayouts := userPayouts s;
     claimedOrders := claimedOrders s |}.

Definition set_liquidationThreshold (v : Z) (s : State) : State :=
  {| owner := owner s; liquidationThreshold := v;
     feePercentage := feePercentage s; whitelistedUsers := whitelistedUsers s;
     blacklistedUsers := blacklistedUsers s; contractBalance := contractBalance s;
     locked := locked s; paused := paused s; multiSigWallets := multiSigWallets s;
     minSignatures := minSignatures s; userPayouts := userPayouts s;
     claimedOrders := claimedOrders s |}.

Definition set_feePercentage (v : Z) (s : State) : State :=
  {| owner := owner s; liquidationThreshold := liquidationThreshold s;
     feePercentage := v; whitelistedUsers := whitelistedUsers s;
     blacklistedUsers := blacklistedUsers s; contractBalance := contractBalance s;
     locked := locked s; paused := paused s; multiSigWallets := multiSigWallets s;
     minSignatures := minSignatures s; userPayouts := userPayouts s;
     claimedOrders := claimedOrders s |}.

Definition set_whitelistedUsers (v : address -> bool) (s : State) : State :=
  {| owner := owner s; liquidationThreshold := liquidationThreshold s;
     feePercentage := feePercentage s; whitelistedUsers := v;
     blacklistedUsers := blacklistedUsers s; contractBalance := contractBalance s;
     locked := locked s; paused := paused s; multiSigWallets := multiSigWallets s;
     minSignatures := minSignatures s; userPayouts := userPayouts s;
     claimedOrders := claimedOrders s |}.

Definition set_blacklistedUsers (v : address -> bool) (s : State) : State :=
  {| owner := owner s; liquidationThreshold := liquidationThreshold s;
     feePercentage := feePercentage s; whitelistedUsers := whitelistedUsers s;
     blacklistedUsers := v; contractBalance := contractBalance s;
     locked := locked s; paused := paused s; multiSigWallets := multiSigWallets s;
     minSignatures := minSignatures s; userPayouts := userPayouts s;
     claimedOrders := claimedOrders s |}.

Definition set_contractBalance (v : Z) (s : State) : State :=
  {| owner := owner s; liquidationThreshold := liquidationThreshold s;
     feePercentage := feePercentage s; whitelistedUsers := whitelistedUsers s;
     blacklistedUsers := blacklistedUsers s; contractBalance := v;
     locked := locked s; paused := paused s; multiSigWallets := multiSigWallets s;
     minSignatures := minSignatures s; userPayouts := userPayouts s;
     claimedOrders := claimedOrders s |}.

Definition set_locked (v : bool) (s : State) : State :=
  {| owner := owner s; liquidationThreshold := liquidationThreshold s;
     feePercentage := feePercentage s; whitelistedUsers := whitelistedUsers s;
     blacklistedUsers := blacklistedUsers s; contractBalance := contractBalance s;
     locked := v; paused := paused s; multiSigWallets := multiSigWallets s;
     minSignatures := minSignatures s; userPayouts := userPayouts s;
     claimedOrders := claimedOrders s |}.

Definition set_paused (v : bool) (s : State) : State :=
  {| owner := owner s; liquidationThreshold := liquidationThreshold s;
     feePercentage := feePercentage s; whitelistedUsers := whitelistedUsers s;
     blacklistedUsers := blacklistedUsers s; contractBalance := contractBalance s;
     locked := locked s; paused := v; multiSigWallets := multiSigWallets s;
     minSignatures := minSignatures s; userPayouts := userPayouts s;
     claimedOrders := claimedOrders s |}.

Definition set_multiSigWallets (v : list address) (s : State) : State :=
  {| owner := owner s; liquidationThreshold := liquidationThreshold s;
     feePercentage := feePercentage s; whitelistedUsers := whitelistedUsers s;
     blacklistedUsers := blacklistedUsers s; contractBalance := contractBalance s;
     locked := locked s; paused := paused s; multiSigWallets := v;
     minSignatures := minSignatures s; userPayouts := userPayouts s;
     claimedOrders := claimedOrders s |}.

Definition set_minSignatures (v : Z) (s : State) : State :=
  {| owner := owner s; liquidationThreshold := liquidationThreshold s;
     feePercentage := feePercentage s; whitelistedUsers := whitelistedUsers s;
     blacklistedUsers := blacklistedUsers s; contractBalance := contractBalance s;
     locked := locked s; paused := paused s; multiSigWallets := multiSigWallets s;
     minSignatures := v; userPayouts := userPayouts s;
     claimedOrders := claimedOrders s |}.

Definition set_userPayouts (v : address -> UserPayouts) (s : State) : State :=
  {| owner := owner s; liquidationThreshold := liquidationThreshold s;
     feePercentage := feePercentage s; whitelistedUsers := whitelistedUsers s;
     blacklistedUsers := blacklistedUsers s; contractBalance := contractBalance s;
     locked := locked s; paused := paused s; multiSigWallets := multiSigWallets s;
     minSignatures := minSignatures s; userPayouts := v;
     claimedOrders := claimedOrders s |}.

Definition set_claimedOrders (v : address -> Z -> bool) (s : State) : State :=
  {| owner := owner s; liquidationThreshold := liquidationThreshold s;
     feePercentage := feePercentage s; whitelistedUsers := whitelistedUsers s;
     blacklistedUsers := blacklistedUsers s; contractBalance := contractBalance s;
     locked := locked s; paused := paused s; multiSigWallets := multiSigWallets s;
     minSignatures := minSignatures s; userPayouts := userPayouts s;
     claimedOrders := v |}.

(** ** Modifiers

    A modifier wraps the body that stands for its [_;]. *)

Definition onlyOwner (sender : address) (body : M State unit) : M State unit :=
  o <- gets owner ;;
  require (sender =? o) "Not owner" ;;
  body.

(** The membership loop of [onlyMultiSig], with its [break]. *)
Fixpoint isMultiSigLoop (sender : address) (wallets : list address) : bool :=
  match wallets with
  | [] => false
  | w :: rest => if sender =? w then true else isMultiSigLoop sender rest
  end.

Definition onlyMultiSig (sender : address) (body : M State unit) : M State unit :=
  ws <- gets multiSigWallets ;;
  require (isMultiSigLoop sender ws) "Not multi-sig wallet" ;;
  body.

Definition whitelistedOnly (sender : address) (body : M State unit) : M State unit :=
  w <- gets whitelistedUsers ;;
  require (w sender) "User not whitelisted" ;;
  b <- gets blacklistedUsers ;;
  require (negb (b sender)) "User is blacklisted" ;;
  body.

Definition noReentrant (body : M State unit) : M State unit :=
  l <- gets locked ;;
  require (negb l) "Reentrant call" ;;
  modify (set_locked true) ;;
  body ;;
  modify (set_locked false).

Definition whenNotPaused (body : M State unit) : M State unit :=
  p <- gets paused ;;
  require (negb p) "Contract paused" ;;
  body.

(** ** Array access with Solidity's bounds check *)

Definition record_at (u : UserPayouts) (index : Z) : M State PayoutRecord :=
  match records u !! Z.to_nat index with
  | Some r => ret r
  | None => fail INDEX_PANIC
  end.

Definition set_record_verified (v : bool) (r : PayoutRecord) : PayoutRecord :=
  {| orderId := orderId r; amount := amount r; timestamp := timestamp r;
     verified := v |}.

Definition set_record_amount (v : Z) (r : PayoutRecord) : PayoutRecord :=
  {| orderId := orderId r; amount := v; timestamp := timestamp r;
     verified := verified r |}.

(** [userPayouts[user].records[index] = f(userPayouts[user].records[index])] *)
Definition update_record (user : address) (index : Z)
    (f : PayoutRecord -> PayoutRecord) (s : State) : State :=
  let u := userPayouts s user in
  set_userPayouts
    (<[user := {| records := alter f (Z.to_nat index) (records u);
                  orderIdToIndex := orderIdToIndex u |}]> (userPayouts s)) s.

(** ** Claim submission *)

Definition submitClaim (sender : address) (now : Z)
    (_orderId _principal _leverage _insuranceRate : Z) : M State unit :=
  whitelistedOnly sender (noReentrant (whenNotPaused (
    claimed <- gets claimedOrders ;;
    require (negb (claimed sender _orderId)) "Order already claimed" ;;
    threshold <- gets liquidationThreshold ;;
    require ((0 <? _principal) && (threshold <? _leverage)) "Invalid params" ;;
    require ((0 <? _insuranceRate) && (_insuranceRate <=? 100))
      "Invalid insurance rate" ;;
    modify (fun s => set_claimedOrders
      (<[sender := <[_orderId := true]> (claimedOrders s sender)]> (claimedOrders s)) s) ;;
    weighted <- checked_mul _principal _insuranceRate ;;
    excess <- checked_sub _leverage threshold ;;
    product <- checked_mul weighted excess ;;
    let estimatedPayout := product / 10000 in
    payouts <- gets userPayouts ;;
    let index := Z.of_nat (length (records (payouts sender))) in
    modify (set_userPayouts
      (<[sender := {| records := records (payouts sender) ++
                        [{| orderId := _orderId; amount := estimatedPayout;
                            timestamp := now; verified := false |}];
                      orderIdToIndex := <[_orderId := index]>
                                          (orderIdToIndex (payouts sender)) |}]>
         payouts))))).

(** ** Verification *)

Definition updateVerification (sender : address) (_user : address)
    (_orderId _principal _leverage _insuranceRate : Z) (_verified : bool)
    : M State unit :=
  onlyMultiSig sender (whenNotPaused (
    claimed <- gets claimedOrders ;;
    require (claimed _user _orderId) "Order not claimed" ;;
    payouts <- gets userPayouts ;;
    let index := orderIdToIndex (payouts _user) _orderId in
    require (index <? Z.of_nat (length (records (payouts _user))))
      "Order record not found" ;;
    r <- record_at (payouts _user) index ;;
    require (orderId r =? _orderId) "Order ID mismatch" ;;
    scaled <- checked_mul (amount r) _insuranceRate ;;
    let payoutAmount := scaled / 100 in
    modify (update_record _user index (set_record_verified _verified)) ;;
    modify (update_record _user index (set_record_amount payoutAmount)))).

(** ** Funds and settlement

    [withdraw] and [executePayout] hand control to another account through
    a low-level [call] that carries value.  Such a call never reverts its
    caller: it reports success or failure, and the storage may have changed
    in between when the callee called back into the contract.  What the
    callee does is given by [call_value]. *)

Definition Callee : Type := address -> Z -> State -> bool * State.

Definition low_level_call (call_value : Callee) (to : address) (value : Z)
    : M State bool :=
  fun s => Ok (call_value to value s).

Section Transfers.
Variable call_value : Callee.

Definition withdraw (sender : address) (_amount : Z) : M State unit :=
  onlyMultiSig sender (noReentrant (
    balance <- gets contractBalance ;;
    require (_amount <=? balance) "Insufficient contract balance" ;;
    rest <- checked_sub balance _amount ;;
    modify (set_contractBalance rest) ;;
    o <- gets owner ;;
    success <- low_level_call call_value o _amount ;;
    require success "Withdrawal failed")).

Definition executePayout (sender : address) (_user : address) (_orderId : Z)
    : M State unit :=
  onlyMultiSig sender (noReentrant (whenNotPaused (
    w <- gets whitelistedUsers ;;
    require (w _user) "User not whitelisted" ;;
    b <- gets blacklistedUsers ;;
    require (negb (b _user)) "User is blacklisted" ;;
    claimed <- gets claimedOrders ;;
    require (claimed _user _orderId) "Order not claimed" ;;
    payouts <- gets userPayouts ;;
    let index := orderIdToIndex (payouts _user) _orderId in
    require (index <? Z.of_nat (length (records (payouts _user))))
      "Order record not found" ;;
    r <- record_at (payouts _user) index ;;
    require (orderId r =? _orderId) "Order ID mismatch" ;;
    require (verified r) "Not verified" ;;
    let payoutCap := amount r in
    require (0 <? payoutCap) "Invalid payout amount" ;;
    balance <- gets contractBalance ;;
    require (payoutCap <=? balance) "Insufficient contract balance" ;;
    feeRate <- gets feePercentage ;;
    scaled <- checked_mul payoutCap feeRate ;;
    let fee := scaled / 100 in
    payoutAmount <- checked_sub payoutCap fee ;;
    rest <- checked_sub balance payoutAmount ;;
    modify (set_contractBalance rest) ;;
    success <- low_level_call call_value _user payoutAmount ;;
    require success "Payout failed"))).
End Transfers.

Definition addFunds (sender : address) (value : Z) : M State unit :=
  onlyOwner sender (
    balance <- gets contractBalance ;;
    total <- checked_add balance value ;;
    modify (set_contractBalance total)).

Definition receive (value : Z) : M State unit :=
  whenNotPaused (
    balance <- gets contractBalance ;;
    total <- checked_add balance value ;;
    modify (set_contractBalance total)).

(** ** Governance *)

Definition pause (sender : address) : M State unit :=
  onlyOwner sender (modify (set_paused true)).

Definition unpause (sender : address) : M State unit :=
  onlyOwner sender (modify (set_paused false)).

Definition addToWhitelist (sender : address) (_user : address) : M State unit :=
  onlyOwner sender (
    require (negb (_user =? 0)) "Invalid address" ;;
    modify (fun s => set_whitelistedUsers (<[_user := true]> (whitelistedUsers s)) s)).

Definition removeFromWhitelist (sender : address) (_user : address) : M State unit :=
  onlyOwner sender (
    modify (fun s => set_whitelistedUsers (<[_user := false]> (whitelistedUsers s)) s)).

Definition addToBlacklist (sender : address) (_user : address) : M State unit :=
  onlyOwner sender (
    modify (fun s => set_blacklistedUsers (<[_user := true]> (blacklistedUsers s)) s)).

Definition removeFromBlacklist (sender : address) (_user : address) : M State unit :=
  onlyOwner sender (
    modify (fun s => set_blacklistedUsers (<[_user := false]> (blacklistedUsers s)) s)).

Definition updateThreshold (sender : address) (_newThreshold : Z) : M State unit :=
  onlyMultiSig sender (
    require ((0 <? _newThreshold) && (_newThreshold <? 100)) "Invalid threshold" ;;
    modify (set_liquidationThreshold _newThreshold)).

Definition updateFee (sender : address) (_newFee : Z) : M State unit :=
  onlyMultiSig sender (
    require (_newFee <=? 5) "Invalid fee" ;;
    modify (set_feePercentage _newFee)).

Definition transferOwnership (sender : address) (_newOwner : address) : M State unit :=
  onlyOwner sender (
    require (negb (_newOwner =? 0)) "Invalid address" ;;
    modify (set_owner _newOwner)).

Definition updateMultiSigWallets (sender : address) (_newWallets : list address)
    : M State unit :=
  onlyOwner sender (
    m <- gets minSignatures ;;
    require (m <=? Z.of_nat (length _newWallets)) "Insufficient multi-sig wallets" ;;
    modify (set_multiSigWallets _newWallets)).

Definition updateMinSignatures (sender : address) (_min : Z) : M State unit :=
  onlyOwner sender (
    ws <- gets multiSigWallets ;;
    require ((0 <? _min) && (_min <=? Z.of_nat (length ws))) "Invalid min signatures" ;;
    modify (set_minSignatures _min)).

(** The storage a successful deployment leaves behind: the state-variable
    initialisers ([paused = false], [minSignatures = 3], empty mappings) and
    the assignments of the constructor. *)
Definition initial_storage (sender : address) (_multiSigWallets : list address)
    : State :=
  {| owner := sender; liquidationThreshold := 80; feePercentage := 5;
     whitelistedUsers := fun _ => false; blacklistedUsers := fun _ => false;
     contractBalance := 0; locked := false; paused := false;
     multiSigWallets := _multiSigWallets; minSignatures := 3;
     userPayouts := fun _ => {| records := []; orderIdToIndex := fun _ => 0 |};
     claimedOrders := fun _ _ => false |}.

Definition constructor (sender : address) (_multiSigWallets : list address)
    : Result State :=
  if 3 <=? Z.of_nat (length _multiSigWallets) then
    Ok (initial_storage sender _multiSigWallets)
  else Err (Revert "Insufficient multi-sig wallets").

(** ** Read-only queries *)

(** The copy loop of [getUserPayouts]: [result[i] = records[i]] for
    [i = from, from + 1, ...], [count] times. *)
Fixpoint copyRecords (rs : list PayoutRecord) (from count : nat)
    : list PayoutRecord :=
  match count with
  | O => []
  | S n => match rs !! from with
           | Some r => r :: copyRecords rs (S from) n
           | None => []
           end
  end.

Definition getUserPayouts (_user : address) (s : State) : list PayoutRecord :=
  let rs := records (userPayouts s _user) in
  copyRecords rs 0 (length rs).

Definition isOrderClaimed (_user : address) (_orderId : Z) (s : State) : bool :=
  claimedOrders s _user _orderId.

Definition getMultiSigWalletCount (s : State) : Z :=
  Z.of_nat (length (multiSigWallets s)).

Definition getMultiSigWallet (_index : Z) (s : State) : Result address :=
  if _index <? Z.of_nat (length (multiSigWallets s)) then
    match multiSigWallets s !! Z.to_nat _index with
    | Some a => Ok a
    | None => Err INDEX_PANIC
    end
  else Err (Revert "Index out of bounds").

(** ** Messages and callees

    The external entry points as data, so that the behaviour of an account
    that receives a payout can be written down: it may call back into the
    contract any number of times before it reports success or failure. *)

Inductive Call : Type :=
| CallSubmitClaim (_orderId _principal _leverage _insuranceRate : Z)
| CallUpdateVerification (_user : address)
    (_orderId _principal _leverage _insuranceRate : Z) (_verified : bool)
| CallExecutePayout (_user : address) (_orderId : Z)
| CallWithdraw (_amount : Z)
| CallAddFunds (value : Z)
| CallReceive (value : Z)
| CallPause
| CallUnpause
| CallAddToWhitelist (_user : address)
| CallRemoveFromWhitelist (_user : address)
| CallAddToBlacklist (_user : address)
| CallRemoveFromBlacklist (_user : address)
| CallUpdateThreshold (_newThreshold : Z)
| CallUpdateFee (_newFee : Z)
| CallTransferOwnership (_newOwner : address)
| CallUpdateMultiSigWallets (_newWallets : list address)
| CallUpdateMinSignatures (_min : Z).

Record Message : Type := {
  msg_sender : address;
  block_timestamp : Z;
  msg_call : Call
}.

Definition dispatch (call_value : Callee) (m : Message) : M State unit :=
  let sender := msg_sender m in
  match msg_call m with
  | CallSubmitClaim o p l r => submitClaim sender (block_timestamp m) o p l r
  | CallUpdateVerification u o p l r v => updateVerification sender u o p l r v
  | CallExecutePayout u o => executePayout call_value sender u o
  | CallWithdraw a => withdraw call_value sender a
  | CallAddFunds v => addFunds sender v
  | CallReceive v => receive v
  | CallPause => pause sender
  | CallUnpause => unpause sender
  | CallAddToWhitelist u => addToWhitelist sender u
  | CallRemoveFromWhitelist u => removeFromWhitelist sender u
  | CallAddToBlacklist u => addToBlacklist sender u
  | CallRemoveFromBlacklist u => removeFromBlacklist sender u
  | CallUpdateThreshold t => updateThreshold sender t
  | CallUpdateFee f => updateFee sender f
  | CallTransferOwnership o => transferOwnership sender o
  | CallUpdateMultiSigWallets ws => updateMultiSigWallets sender ws
  | CallUpdateMinSignatures n => updateMinSignatures sender n
  end.

(** The entry points behind the [noReentrant] modifier. *)
Definition guarded (c : Call) : bool :=
  match c with
  | CallSubmitClaim _ _ _ _ | CallExecutePayout _ _ | CallWithdraw _ => true
  | _ => false
  end.

(** A callee that takes the value and does nothing else, or refuses it. *)
Definition passive (accepts : bool) : Callee := fun _ _ s => (accepts, s).

(** A callee that calls back into the contract.  A nested call that reverts
    is rolled back on its own and the callee carries on.  The nested calls
    run while the lock of the outer call is held, so a nested [withdraw] or
    [executePayout] never reaches its own transfer (see
    [dispatch_locked_callee]); [passive true] stands in for it. *)
Record Recipient : Type := {
  accepts : bool;
  callbacks : list Message
}.

Definition run_callbacks (ms : list Message) (s : State) : State :=
  fold_left (fun st m => storage_after st (dispatch (passive true) m st)) ms s.

Definition recipient_call (r : Recipient) : Callee :=
  fun _ _ s => (accepts r, run_callbacks (callbacks r) s).

(** ** The registry entry of a claim

    The lookup that [updateVerification] and [executePayout] perform for
    [(user, orderId)]: the claimed flag, the index, the bounds check and the
    order-id comparison. *)
Definition findClaim (s : State) (_user : address) (_orderId : Z)
    : option PayoutRecord :=
  if claimedOrders s _user _orderId then
    let u := userPayouts s _user in
    let index := orderIdToIndex u _orderId in
    if index <? Z.of_nat (length (records u)) then
      match records u !! Z.to_nat index with
      | Some r => if orderId r =? _orderId then Some r else None
      | None => None
      end
    else None
  else None.

(** Fee and net transfer of a settlement, as [executePayout] computes them. *)
Definition feeOf (s : State) (payoutCap : Z) : Z :=
  payoutCap * feePercentage s / 100.

Definition transferAmountOf (s : State) (payoutCap : Z) : Z :=
  payoutCap - feeOf s payoutCap.

(** The storage a successful [submitClaim] leaves behind. *)
Definition claim_registered (sender : address) (now _orderId estimatedPayout : Z)
    (s : State) : State :=
  let u := userPayouts s sender in
  set_locked false
    (set_userPayouts
       (<[sender := {| records := records u ++
                         [{| orderId := _orderId; amount := estimatedPayout;
                             timestamp := now; verified := false |}];
                       orderIdToIndex := <[_orderId := Z.of_nat (length (records u))]>
                                           (orderIdToIndex u) |}]>
          (userPayouts s))
       (set_claimedOrders
          (<[sender := <[_orderId := true]> (claimedOrders s sender)]> (claimedOrders s))
          (set_locked true s))).

(** The storage a successful [updateVerification] leaves behind. *)
Definition claim_verified (_user : address) (index payoutAmount : Z)
    (_verified : bool) (s : State) : State :=
  update_record _user index (set_record_amount payoutAmount)
    (update_record _user index (set_record_verified _verified) s).

(** ** Guards in the order they run *)

(** The modifiers of [submitClaim] in the order they run, and the error of
    the first one that fails; [fallback] when all pass. *)
Definition submit_guard_error (s : State) (sender : address)
    (fallback : Failure) : Failure :=
  if negb (whitelistedUsers s sender) then Revert "User not whitelisted"
  else if blacklistedUsers s sender then Revert "User is blacklisted"
  else if locked s then ReentrancyError
  else if paused s then PausedError
  else fallback.

(** The modifiers of [executePayout] in the order they run, and the error
    of the first one that fails; [fallback] when all pass. *)
Definition settle_guard_error (s : State) (sender : address)
    (fallback : Failure) : Failure :=
  if negb (isMultiSigLoop sender (multiSigWallets s)) then Revert "Not multi-sig wallet"
  else if locked s then ReentrancyError
  else if paused s then PausedError
  else fallback.

(** The eligibility tests on the claimant at the head of [executePayout]. *)
Definition claimant_error (s : State) (_user : address)
    (fallback : Failure) : Failure :=
  if negb (whitelistedUsers s _user) then Revert "User not whitelisted"
  else if blacklistedUsers s _user then Revert "User is blacklisted"
  else fallback.

(** The storage the recipient of a payout runs on: the lock held and the
    ledger already debited. *)
Definition in_flight (s : State) (transferAmount : Z) : State :=
  set_contractBalance (contractBalance s - transferAmount) (set_locked true s).

(** ** Sequences of settlements *)

Record Settlement : Type := {
  validator : address;
  claimant : address;
  claim : Z
}.


(** Net (post-fee) amount of a settlement in storage [s]. *)
Definition net_of (s : State) (x : Settlement) : Z :=
  match findClaim s (claimant x) (claim x) with
  | Some r => transferAmountOf s (amount r)
  | None => 0
  end.


(** A callee is inert when whatever it attempts while the lock is held
    leaves the storage as it found it. *)
Definition inert (call_value : Callee) : Prop :=
  forall to value s, locked s = true -> snd (call_value to value s) = s.

(** A callee restricted to the storages in which the lock is held. *)
Definition while_locked (call_value : Callee) : Callee :=
  fun to value s => if locked s then call_value to value s else (false, s).

(** ** A deployment used in the examples *)

Definition deployer : address := 1.
Definition validators : list address := [10; 11; 12].
Definition alice : address := 7.
Definition outsider : address := 99.

Definition step (c : M State unit) (s : State) : State :=
  storage_after s (c s).

Definition genesis : State := initial_storage deployer validators.

(** [alice] whitelisted and [pool] deposited. *)
Definition funded (pool : Z) : State :=
  step (addFunds deployer pool) (step (addToWhitelist deployer alice) genesis).

(** [alice] has submitted order 42. *)
Definition submitted (pool principal leverage rate : Z) : State :=
  step (submitClaim alice 1700000000 42 principal leverage rate) (funded pool).

(** A validator has verified order 42 at [rate']. *)
Definition approved (pool principal leverage rate rate' : Z) : State :=
  step (updateVerification 10 alice 42 principal leverage rate' true)
       (submitted pool principal leverage rate).



End LeverageGuardV2.

(** * The first revision, [contracts/leverageguard/LeverageGuard.sol]

    Owner-operated: no validators, no pause switch, the record of an order
    is found by scanning the user's array from its end, and [executePayout]
    takes the amount to pay from its caller. *)

Module LeverageGuardV1.

Record PayoutRecord : Type := {
  orderId : Z;
  amount : Z;
  timestamp : Z;
  verified : bool
}.

Record State : Type := {
  owner : address;
  liquidationThreshold : Z;
  feePercentage : Z;
  whitelistedUsers : address -> bool;
  blacklistedUsers : address -> bool;
  contractBalance : Z;
  locked : bool;
  userPayouts : address -> list PayoutRecord;
  claimedOrders : address -> Z -> bool
}.

Definition set_whitelistedUsers (v : address -> bool) (s : State) : State :=
  {| owner := owner s; liquidationThreshold := liquidationThreshold s;
     feePercentage := feePercentage s; whitelistedUsers := v;
     blacklistedUsers := blacklistedUsers s; contractBalance := contractBalance s;
     locked := locked s; userPayouts := userPayouts s;
     claimedOrders := claimedOrders s |}.

Definition set_contractBalance (v : Z) (s : State) : State :=
  {| owner := owner s; liquidationThreshold := liquidationThreshold s;
     feePercentage := feePercentage s; whitelistedUsers := whitelistedUsers s;
     blacklistedUsers := blacklistedUsers s; contractBalance := v;
     locked := locked s; userPayouts := userPayouts s;
     claimedOrders := claimedOrders s |}.

Definition set_locked (v : bool) (s : State) : State :=
  {| owner := owner s; liquidationThreshold := liquidationThreshold s;
     feePercentage := feePercentage s; whitelistedUsers := whitelistedUsers s;
     blacklistedUsers := blacklistedUsers s; contractBalance := contractBalance s;
     locked := v; userPayouts := userPayouts s;
     claimedOrders := claimedOrders s |}.

Definition set_userPayouts (v : address -> list PayoutRecord) (s : State) : State :=
  {| owner := owner s; liquidationThreshold := liquidationThreshold s;
     feePercentage := feePercentage s; whitelistedUsers := whitelistedUsers s;
     blacklistedUsers := blacklistedUsers s; contractBalance := contractBalance s;
     locked := locked s; userPayouts := v;
     claimedOrders := claimedOrders s |}.

Definition set_claimedOrders (v : address -> Z -> bool) (s : State) : State :=
  {| owner := owner s; liquidationThreshold := liquidationThreshold s;
     feePercentage := feePercentage s; whitelistedUsers := whitelistedUsers s;
     blacklistedUsers := blacklistedUsers s; contractBalance := contractBalance s;
     locked := locked s; userPayouts := userPayouts s;
     claimedOrders := v |}.

Definition onlyOwner (sender : address) (body : M State unit) : M State unit :=
  o <- gets owner ;;
  require (sender =? o) "Not owner" ;;
  body.

Definition whitelistedOnly (sender : address) (body : M State unit) : M State unit :=
  w <- gets whitelistedUsers ;;
  require (w sender) "User not whitelisted" ;;
  b <- gets blacklistedUsers ;;
  require (negb (b sender)) "User is blacklisted" ;;
  body.

Definition noReentrant (body : M State unit) : M State unit :=
  l <- gets locked ;;
  require (negb l) "Reentrant call" ;;
  modify (set_locked true) ;;
  body ;;
  modify (set_locked false).

Definition initial_storage (sender : address) : State :=
  {| owner := sender; liquidationThreshold := 80; feePercentage := 5;
     whitelistedUsers := fun _ => false; blacklistedUsers := fun _ => false;
     contractBalance := 0; locked := false;
     userPayouts := fun _ => []; claimedOrders := fun _ _ => false |}.

Definition addFunds (sender : address) (value : Z) : M State unit :=
  onlyOwner sender (
    balance <- gets contractBalance ;;
    total <- checked_add balance value ;;
    modify (set_contractBalance total)).

Definition addToWhitelist (sender : address) (_user : address) : M State unit :=
  onlyOwner sender (
    require (negb (_user =? 0)) "Invalid address" ;;
    modify (fun s => set_whitelistedUsers (<[_user := true]> (whitelistedUsers s)) s)).

Definition submitClaim (sender : address) (now : Z)
    (_orderId _principal _leverage _insuranceRate : Z) : M State unit :=
  whitelistedOnly sender (noReentrant (
    claimed <- gets claimedOrders ;;
    require (negb (claimed sender _orderId)) "Order already claimed" ;;
    threshold <- gets liquidationThreshold ;;
    require ((0 <? _principal) && (threshold <? _leverage)) "Invalid params" ;;
    require ((0 <? _insuranceRate) && (_insuranceRate <=? 100))
      "Invalid insurance rate" ;;
    modify (fun s => set_claimedOrders
      (<[sender := <[_orderId := true]> (claimedOrders s sender)]> (claimedOrders s)) s) ;;
    weighted <- checked_mul _principal _insuranceRate ;;
    excess <- checked_sub _leverage threshold ;;
    product <- checked_mul weighted excess ;;
    let estimatedPayout := product / 10000 in
    modify (fun s => set_userPayouts
      (<[sender := userPayouts s sender ++
                     [{| orderId := _orderId; amount := estimatedPayout;
                         timestamp := now; verified := false |}]]>
         (userPayouts s)) s))).

(** The scan [for (i = len; i > 0; ) { --i; if (test(rs[i])) ... }]: the
    highest index below [i] whose record passes [test]. *)
Fixpoint scanDown (test : PayoutRecord -> bool) (rs : list PayoutRecord)
    (i : nat) : option nat :=
  match i with
  | O => None
  | S j => match rs !! j with
           | Some r => if test r then Some j else scanDown test rs j
           | None => scanDown test rs j
           end
  end.

Definition updateVerification (sender : address) (_user : address)
    (_orderId _principal _leverage _insuranceRate : Z) (_verified : bool)
    : M State unit :=
  onlyOwner sender (
    claimed <- gets claimedOrders ;;
    require (claimed _user _orderId) "Order not claimed" ;;
    payouts <- gets userPayouts ;;
    let rs := payouts _user in
    require (0 <? Z.of_nat (length rs)) "No record" ;;
    match scanDown (fun r => orderId r =? _orderId) rs (length rs) with
    | Some i =>
        match rs !! i with
        | Some r =>
            scaled <- checked_mul (amount r) _insuranceRate ;;
            let payoutAmount := scaled / 100 in
            modify (set_userPayouts
              (<[_user := <[i := {| orderId := orderId r; amount := payoutAmount;
                                    timestamp := timestamp r;
                                    verified := _verified |}]> rs]> payouts))
        | None => fail INDEX_PANIC
        end
    | None => fail (Revert "Order mismatch")
    end).

Definition V1Callee : Type := address -> Z -> State -> bool * State.

Definition executePayout (call_value : V1Callee) (sender : address)
    (_user : address) (_orderId _amount : Z) : M State unit :=
  onlyOwner sender (noReentrant (
    w <- gets whitelistedUsers ;;
    require (w _user) "User not whitelisted" ;;
    b <- gets blacklistedUsers ;;
    require (negb (b _user)) "User is blacklisted" ;;
    claimed <- gets claimedOrders ;;
    require (claimed _user _orderId) "Order not claimed" ;;
    require (0 <? _amount) "Amount must be > 0" ;;
    balance <- gets contractBalance ;;
    require (_amount <=? balance) "Insufficient contract balance" ;;
    payouts <- gets userPayouts ;;
    let rs := payouts _user in
    require (0 <? Z.of_nat (length rs)) "No record" ;;
    let foundVerified :=
      match scanDown (fun r => (orderId r =? _orderId) && verified r) rs (length rs) with
      | Some _ => true
      | None => false
      end in
    require foundVerified "Not verified" ;;
    feeRate <- gets feePercentage ;;
    scaled <- checked_mul _amount feeRate ;;
    let fee := scaled / 100 in
    payoutAmount <- checked_sub _amount fee ;;
    rest <- checked_sub balance payoutAmount ;;
    modify (set_contractBalance rest) ;;
    success <- (fun s => Ok (call_value _user payoutAmount s)) ;;
    require success "Payout failed")).

(** The deployment of the examples: owner 1, [alice] whitelisted, 100
    deposited, order 42 submitted and then verified at rate 50. *)
Definition approved : State :=
  let run (c : M State unit) (s : State) := storage_after s (c s) in
  run (updateVerification 1 7 42 1000 90 50 true)
    (run (submitClaim 7 1700000000 42 1000 90 50)
       (run (addFunds 1 100)
          (run (addToWhitelist 1 7) (initial_storage 1)))).

End LeverageGuardV1.

Module V1 := LeverageGuardV1.

(** * Transactions and reachable storage *)

Module Runs.
Import LeverageGuardV2.

(** What the ABI decoder accepts for a [uint256] argument. *)
Definition in_uint256 (x : Z) : bool := (0 <=? x) && (x <=? MAX_UINT256).

Definition wf_call (c : Call) : bool :=
  match c with
  | CallSubmitClaim o p l r =>
      in_uint256 o && in_uint256 p && in_uint256 l && in_uint256 r
  | CallUpdateVerification _ o p l r _ =>
      in_uint256 o && in_uint256 p && in_uint256 l && in_uint256 r
  | CallExecutePayout _ o => in_uint256 o
  | CallWithdraw a => in_uint256 a
  | CallAddFunds v => in_uint256 v
  | CallReceive v => in_uint256 v
  | CallUpdateThreshold t => in_uint256 t
  | CallUpdateFee f => in_uint256 f
  | CallUpdateMinSignatures n => in_uint256 n
  | _ => true
  end.

(** Two further entry points read or report without touching the claim
    path.  [syncBalance] overwrites the ledger with the balance the chain
    holds for the contract, [address(this).balance], which the caller of
    the embedding supplies; [verifyBalance] compares the two;
    [markLiquidation] only checks and emits. *)
Definition syncBalance (sender : address) (chainBalance : Z) : M State unit :=
  onlyOwner sender (modify (set_contractBalance chainBalance)).

Definition verifyBalance (chainBalance : Z) (s : State) : bool :=
  contractBalance s =? chainBalance.

Definition markLiquidation (sender : address) (_user : address)
    (_leverageRatio : Z) : M State unit :=
  onlyOwner sender (
    b <- gets blacklistedUsers ;;
    require (negb (b _user)) "User is blacklisted" ;;
    threshold <- gets liquidationThreshold ;;
    require (threshold <? _leverageRatio) "Leverage below threshold").

(** A transaction: a message to one of the entry points of [dispatch]
    together with what the account that may receive value in it does while
    it holds control, or a call of [syncBalance] or [markLiquidation]. *)
Inductive Transaction : Type :=
| Invoke (m : Message) (r : Recipient)
| SyncBalance (sender : address) (chainBalance : Z)
| MarkLiquidation (sender : address) (_user : address) (_leverageRatio : Z).

Definition wf_tx (t : Transaction) : bool :=
  match t with
  | Invoke m r =>
      wf_call (msg_call m) &&
      forallb (fun m' => wf_call (msg_call m')) (callbacks r)
  | SyncBalance _ chainBalance => in_uint256 chainBalance
  | MarkLiquidation _ _ ratio => in_uint256 ratio
  end.

Definition execute (t : Transaction) (s : State) : State :=
  match t with
  | Invoke m r => storage_after s (dispatch (recipient_call r) m s)
  | SyncBalance sender chainBalance =>
      storage_after s (syncBalance sender chainBalance s)
  | MarkLiquidation sender u ratio =>
      storage_after s (markLiquidation sender u ratio s)
  end.

Definition run (ts : list Transaction) (s : State) : State :=
  fold_left (fun st t => execute t st) ts s.

(** The account a transaction comes from, [msg.sender] of its outer call. *)
Definition tx_sender (t : Transaction) : address :=
  match t with
  | Invoke m _ => msg_sender m
  | SyncBalance sender _ => sender
  | MarkLiquidation sender _ _ => sender
  end.

(** A transaction whose recipient does nothing but accept. *)
Definition plain (sender : address) (now : Z) (c : Call) : Transaction :=
  Invoke {| msg_sender := sender; block_timestamp := now; msg_call := c |}
         {| accepts := true; callbacks := [] |}.

(** The history behind the storage [approved 100 1000 90 50 50] of the
    examples. *)
Definition history : list Transaction :=
  [ plain deployer 1699999000 (CallAddToWhitelist alice);
    plain deployer 1699999500 (CallAddFunds 100);
    plain alice 1700000000 (CallSubmitClaim 42 1000 90 50);
    plain 10 1700000050 (CallUpdateVerification alice 42 1000 90 50 true) ].

(** The registry of every user agrees with itself: the record of a claimed
    order sits at the index stored for that order, and every record is the
    record of its own order, with an amount in range. *)
Definition registry_ok (s : State) : Prop :=
  forall u,
    (forall o, claimedOrders s u o = true ->
       exists r,
         records (userPayouts s u)
           !! Z.to_nat (orderIdToIndex (userPayouts s u) o) = Some r /\
         orderId r = o /\
         0 <= orderIdToIndex (userPayouts s u) o) /\
    (forall i r, records (userPayouts s u) !! i = Some r ->
       claimedOrders s u (orderId r) = true /\
       orderIdToIndex (userPayouts s u) (orderId r) = Z.of_nat i /\
       0 <= amount r <= MAX_UINT256).

Record sound (s : State) : Prop := {
  sound_threshold : 0 < liquidationThreshold s < 100;
  sound_fee : 0 <= feePercentage s <= 5;
  sound_balance : 0 <= contractBalance s <= MAX_UINT256;
  sound_quorum : 0 < minSignatures s <= Z.of_nat (length (multiSigWallets s));
  sound_registry : registry_ok s
}.

(** A callee that keeps sound storage sound and leaves the lock held. *)
Definition callee_sound (call_value : Callee) : Prop :=
  forall to value s,
    sound s -> locked s = true ->
    sound (snd (call_value to value s)) /\
    locked (snd (call_value to value s)) = true.

(** The entry points behind the [whenNotPaused] modifier. *)
Definition pause_gated (c : Call) : bool :=
  match c with
  | CallSubmitClaim _ _ _ _ | CallUpdateVerification _ _ _ _ _ _
  | CallExecutePayout _ _ | CallReceive _ => true
  | _ => false
  end.

(** [s'] keeps everything the registry of [s] holds: claimed flags stay
    set, and every record stays at its position with its order id and its
    timestamp. *)
Definition registry_extends (s s' : State) : Prop :=
  forall u,
    (forall o, claimedOrders s u o = true -> claimedOrders s' u o = true) /\
    (forall i r, records (userPayouts s u) !! i = Some r ->
       exists r', records (userPayouts s' u) !! i = Some r' /\
                  orderId r' = orderId r /\ timestamp r' = timestamp r).

End Runs.

(** * The wallet widget and the language switch of the customer web app

    [apps/customer-web/src/components/WalletConnectButton.ts] and
    [apps/customer-web/src/utils/language.ts].  A JavaScript string is the
    sequence of its UTF-16 code units; the DOM nodes the widget owns are
    the fields it writes; [window.ethereum], [localStorage] and the
    browser's [toLowerCase] are supplied by the caller of the embedding.
    The promise-based methods ([connect], [ensureBaseNetwork],
    [handleSignClick]) are not modelled. *)

Module CustomerWeb.

Definition jsstring : Type := list Z.

(** The code units of a literal written in ASCII. *)
Definition js (s : string) : jsstring :=
  map (fun a => Z.of_N (Ascii.N_of_ascii a)) (String.list_ascii_of_string s).

Definition str_eqb (a b : jsstring) : bool := bool_decide (a = b).

(** [s.startsWith(p)] *)
Fixpoint startsWith (s p : jsstring) : bool :=
  match p, s with
  | [], _ => true
  | _ :: _, [] => false
  | x :: p', y :: s' => (x =? y) && startsWith s' p'
  end.

(** [s.replace(pattern, replacement)] for a string pattern: the first
    occurrence only. *)
Fixpoint replaceFirst (pattern replacement s : jsstring) : jsstring :=
  if startsWith s pattern then replacement ++ drop (length pattern) s
  else match s with
       | [] => []
       | c :: s' => c :: replaceFirst pattern replacement s'
       end.

(** [address.slice(0, 6)], [address.slice(-4)] and the three dots. *)
Definition shortenAddress (address : jsstring) : jsstring :=
  if (length address <=? 10)%nat then address
  else take 6 address ++ js "..." ++ drop (length address - 4) address.

(** ** Language *)

Inductive SupportedLanguage : Type := zh | en.

Definition lang_code (l : SupportedLanguage) : jsstring :=
  match l with
  | zh => js "zh"
  | en => js "en"
  end.

Definition STORAGE_KEY : jsstring := js "us-frontend-language".

(** [localStorage]: [getItem] gives [null] for a key that was never set. *)
Definition LocalStorage : Type := jsstring -> option jsstring.

Definition setItem (key value : jsstring) (st : LocalStorage) : LocalStorage :=
  fun k => if str_eqb k key then Some value else st k.

Section Language.
Variable toLowerCase : jsstring -> jsstring.

Definition detectLanguage (storage : LocalStorage) (navigatorLanguage : jsstring)
    : SupportedLanguage :=
  let fromBrowser :=
    if startsWith (toLowerCase navigatorLanguage) (js "zh") then zh else en in
  match storage STORAGE_KEY with
  | Some stored =>
      if str_eqb stored (js "zh") then zh
      else if str_eqb stored (js "en") then en
      else fromBrowser
  | None => fromBrowser
  end.

Definition persistLanguage (lang : SupportedLanguage) (storage : LocalStorage)
    : LocalStorage :=
  setItem STORAGE_KEY (lang_code lang) storage.
End Language.

(** ** The wallet widget *)

Inductive WalletConnectionStatus : Type := disconnected | connecting | connected.

Record WalletState : Type := {
  status : WalletConnectionStatus;
  address : option jsstring;
  chainId : option jsstring;
  error : option jsstring
}.

(** A status element: its [data-lang] attribute and its text. *)
Record StatusTarget : Type := {
  dataset_lang : option jsstring;
  textContent : jsstring
}.

Inductive CallbackEvent : Type :=
| OnConnected (a : jsstring)
| OnDisconnected.

Record Widget : Type := {
  state : WalletState;
  connectText : jsstring;
  connectDisabled : bool;
  signDisabled : bool;
  helperText : jsstring;
  statusTargets : list StatusTarget;
  callbackLog : list CallbackEvent
}.

Record NetworkConfig : Type := {
  net_chainId : jsstring;
  chainName : jsstring
}.

(** The Chinese status lines of [translateStatus], as code units:
    "已连接 ", "钱包未连接", "未检测到 MetaMask，请前往官网下载。",
    "请切换回 Base 主网（8453）", "签名已就绪 — 等待提交 API（占位）",
    "MetaMask 中拒绝了请求", "钱包请求处理失败". *)
Definition ZH_CONNECTED : jsstring := [24050; 36830; 25509; 32].
Definition ZH_DISCONNECTED : jsstring := [38065; 21253; 26410; 36830; 25509].
Definition ZH_NOT_DETECTED : jsstring :=
  [26410; 26816; 27979; 21040; 32; 77; 101; 116; 97; 77; 97; 115; 107; 65292;
   35831; 21069; 24448; 23448; 32593; 19979; 36733; 12290].
Definition ZH_SWITCH_BACK : jsstring :=
  [35831; 20999; 25442; 22238; 32; 66; 97; 115; 101; 32; 20027; 32593; 65288;
   56; 52; 53; 51; 65289].
Definition ZH_SIGNATURE_READY : jsstring :=
  [31614; 21517; 24050; 23601; 32490; 32; 8212; 32; 31561; 24453; 25552; 20132;
   32; 65; 80; 73; 65288; 21344; 20301; 65289].
Definition ZH_REJECTED : jsstring :=
  [77; 101; 116; 97; 77; 97; 115; 107; 32; 20013; 25298; 32477; 20102; 35831;
   27714].
Definition ZH_FAILED : jsstring :=
  [38065; 21253; 35831; 27714; 22788; 29702; 22833; 36133].

(** The status lines with a character outside ASCII: "Connecting…",
    "Wrong network — switch to Base" and
    "Signature ready — sending to API (placeholder)". *)
Definition CONNECTING : jsstring := js "Connecting" ++ [8230].
Definition WRONG_NETWORK : jsstring :=
  js "Wrong network " ++ [8212] ++ js " switch to Base".
Definition SIGNATURE_READY : jsstring :=
  js "Signature ready " ++ [8212] ++ js " sending to API (placeholder)".

Definition translateStatus (message lang : jsstring) : jsstring :=
  if negb (str_eqb lang (js "zh")) then message
  else if startsWith message (js "Connected to ") then
    ZH_CONNECTED ++ replaceFirst (js "Connected to ") [] message
  else if str_eqb message (js "Wallet disconnected") then ZH_DISCONNECTED
  else if str_eqb message
            (js "MetaMask not detected. Open the official download page.")
       then ZH_NOT_DETECTED
  else if str_eqb message (js "Please switch back to Base (8453)") then ZH_SWITCH_BACK
  else if str_eqb message SIGNATURE_READY then ZH_SIGNATURE_READY
  else if str_eqb message (js "Request rejected in MetaMask") then ZH_REJECTED
  else if str_eqb message (js "Unable to process wallet request") then ZH_FAILED
  else message.

Definition set_state (v : WalletState) (w : Widget) : Widget :=
  {| state := v; connectText := connectText w;
     connectDisabled := connectDisabled w; signDisabled := signDisabled w;
     helperText := helperText w; statusTargets := statusTargets w;
     callbackLog := callbackLog w |}.

Definition set_connect (text : jsstring) (off : bool) (w : Widget) : Widget :=
  {| state := state w; connectText := text; connectDisabled := off;
     signDisabled := signDisabled w; helperText := helperText w;
     statusTargets := statusTargets w; callbackLog := callbackLog w |}.

Definition set_signDisabled (v : bool) (w : Widget) : Widget :=
  {| state := state w; connectText := connectText w;
     connectDisabled := connectDisabled w; signDisabled := v;
     helperText := helperText w; statusTargets := statusTargets w;
     callbackLog := callbackLog w |}.

Definition set_helperText (v : jsstring) (w : Widget) : Widget :=
  {| state := state w; connectText := connectText w;
     connectDisabled := connectDisabled w; signDisabled := signDisabled w;
     helperText := v; statusTargets := statusTargets w;
     callbackLog := callbackLog w |}.

Definition notify (e : CallbackEvent) (w : Widget) : Widget :=
  {| state := state w; connectText := connectText w;
     connectDisabled := connectDisabled w; signDisabled := signDisabled w;
     helperText := helperText w; statusTargets := statusTargets w;
     callbackLog := callbackLog w ++ [e] |}.

(** Every status element gets the message in its own language, English
    when it names none. *)
Definition updateStatusTarget (message : jsstring) (w : Widget) : Widget :=
  {| state := state w; connectText := connectText w;
     connectDisabled := connectDisabled w; signDisabled := signDisabled w;
     helperText := helperText w;
     statusTargets :=
       map (fun t =>
              {| dataset_lang := dataset_lang t;
                 textContent :=
                   translateStatus message
                     (match dataset_lang t with
                      | Some l => l
                      | None => js "en"
                      end) |})
           (statusTargets w);
     callbackLog := callbackLog w |}.

Section Widget.
Variable toLowerCase : jsstring -> jsstring.
Variable network : NetworkConfig.

(** [hasProvider]: whether [window.ethereum] is there when [render] reads
    it. *)
Definition render (hasProvider : bool) (w : Widget) : Widget :=
  if negb hasProvider then
    updateStatusTarget
      (js "MetaMask not detected. Open the official download page.")
      (set_helperText (js "MetaMask is required to continue")
         (set_signDisabled true
            (set_connect (js "Install MetaMask") false
               (set_state {| status := disconnected; address := None;
                             chainId := None;
                             error := Some (js "missing-provider") |} w))))
  else
    match status (state w) with
    | connecting =>
        set_helperText (js "Please approve the request in MetaMask")
          (set_signDisabled true (set_connect CONNECTING true w))
    | connected =>
        let a := match address (state w) with Some a => a | None => [] end in
        updateStatusTarget (js "Connected to " ++ a)
          (set_helperText (js "Network: " ++ chainName network)
             (set_signDisabled false
                (set_connect (shortenAddress a) false w)))
    | disconnected =>
        updateStatusTarget (js "Wallet disconnected")
          (set_helperText (js "Base Mainnet required")
             (set_signDisabled true
                (set_connect (js "Connect MetaMask") false w)))
    end.

(** [accounts]: [None] for a missing argument. *)
Definition handleAccountsChanged (hasProvider : bool)
    (accounts : option (list jsstring)) (w : Widget) : Widget :=
  render hasProvider
    match accounts with
    | Some (first :: _) =>
        set_signDisabled false
          (set_state {| status := connected; address := Some first;
                        chainId := Some (net_chainId network);
                        error := None |} w)
    | _ =>
        notify OnDisconnected
          (set_signDisabled true
             (set_state {| status := disconnected; address := None;
                           chainId := None; error := None |} w))
    end.

(** The test [chainId?.toLowerCase() !== this.network.chainId.toLowerCase()]. *)
Definition wrongChain (chain : option jsstring) : bool :=
  match chain with
  | Some c => negb (str_eqb (toLowerCase c) (toLowerCase (net_chainId network)))
  | None => true
  end.

Definition handleChainChanged (hasProvider : bool) (chain : option jsstring)
    (w : Widget) : Widget :=
  render hasProvider
    (if wrongChain chain then
       updateStatusTarget (js "Please switch back to Base (8453)")
         (set_signDisabled true (set_helperText WRONG_NETWORK w))
     else
       match address (state w) with
       | Some (c :: a) =>
           updateStatusTarget (js "Connected to " ++ (c :: a))
             (set_helperText (js "Network: " ++ chainName network)
                (set_signDisabled false
                   (set_state {| status := connected; address := Some (c :: a);
                                 chainId := chain; error := None |} w)))
       | _ => w
       end).
End Widget.

(** The network of the app, [BASE_MAINNET]. *)
Definition BASE_MAINNET : NetworkConfig :=
  {| net_chainId := js "0x2105"; chainName := js "Base Mainnet" |}.

(** ASCII letters lowered, everything else kept: how [toLowerCase] acts on
    the chain ids and language tags of the examples. *)
Definition lowerAscii (s : jsstring) : jsstring :=
  map (fun c => if (65 <=? c) && (c <=? 90) then c + 32 else c) s.

End CustomerWeb.

(** * Properties of the multi-sig revision *)

Import LeverageGuardV2.

Ltac unfold_contract :=
  unfold submitClaim, updateVerification, executePayout, withdraw, addFunds,
    receive, onlyOwner, onlyMultiSig, whitelistedOnly, noReentrant,
    whenNotPaused, record_at, low_level_call, bind, gets, modify, require,
    checked_add, checked_sub, checked_mul, ret, fail in *.

Ltac norm := cbn; unfold feeOf, transferAmountOf.

(** Case split on the next atomic test the goal branches on. *)
Ltac split_head :=
  match goal with
  | |- context [if ?b then _ else _] =>
      lazymatch b with
      | context [if _ then _ else _] => fail
      | context [match _ with _ => _ end] => fail
      | negb ?c => destruct c eqn:?; norm; try reflexivity
      | _ => destruct b eqn:?; norm; try reflexivity
      end
  | |- context [@lookup _ _ _ _ ?i ?l] =>
      destruct (@lookup _ _ _ _ i l) eqn:?; norm; try reflexivity
  | |- context [let '(_, _) := ?p in _] =>
      destruct p eqn:?; norm; try reflexivity
  end.

(** Closed goals: evaluate and compare. *)
Ltac closed :=
  vm_compute; repeat split; first [reflexivity | discriminate | idtac].

(** ** The entry points as decision lists

    Each entry point of the claim path, unfolded into the tests it makes in
    the order it makes them, with the error of each and the storage it
    leaves when all pass. *)

Lemma executePayout_flat cv sender user oid s :
  executePayout cv sender user oid s =
  if negb (isMultiSigLoop sender (multiSigWallets s)) then Err (Revert "Not multi-sig wallet")
  else if locked s then Err ReentrancyError
  else if paused s then Err PausedError
  else if negb (whitelistedUsers s user) then Err (Revert "User not whitelisted")
  else if blacklistedUsers s user then Err (Revert "User is blacklisted")
  else if negb (claimedOrders s user oid) then Err NotFoundError
  else
    let u := userPayouts s user in
    let index := orderIdToIndex u oid in
    if negb (index <? Z.of_nat (length (records u))) then Err (Revert "Order record not found")
    else match records u !! Z.to_nat index with
         | None => Err INDEX_PANIC
         | Some r =>
           if negb (orderId r =? oid) then Err (Revert "Order ID mismatch")
           else if negb (verified r) then Err NotVerifiedError
           else if negb (0 <? amount r) then Err (Revert "Invalid payout amount")
           else if negb (amount r <=? contractBalance s) then Err InsufficientBalanceError
           else if negb (amount r * feePercentage s <=? MAX_UINT256) then Err ARITHMETIC_PANIC
           else if negb (feeOf s (amount r) <=? amount r) then Err ARITHMETIC_PANIC
           else if negb (transferAmountOf s (amount r) <=? contractBalance s) then Err ARITHMETIC_PANIC
           else
             let '(success, s1) :=
               cv user (transferAmountOf s (amount r))
                  (in_flight s (transferAmountOf s (amount r))) in
             if success then Ok (tt, set_locked false s1)
             else Err (Revert "Payout failed")
         end.
Proof.
  unfold_contract. unfold in_flight. norm.
  repeat split_head.
Qed.

Lemma submitClaim_flat sender now oid p l r s :
  submitClaim sender now oid p l r s =
  if negb (whitelistedUsers s sender) then Err (Revert "User not whitelisted")
  else if blacklistedUsers s sender then Err (Revert "User is blacklisted")
  else if locked s then Err ReentrancyError
  else if paused s then Err PausedError
  else if claimedOrders s sender oid then Err DuplicateClaimError
  else if negb ((0 <? p) && (liquidationThreshold s <? l)) then Err (Revert "Invalid params")
  else if negb ((0 <? r) && (r <=? 100)) then Err (Revert "Invalid insurance rate")
  else if negb (p * r <=? MAX_UINT256) then Err ARITHMETIC_PANIC
  else if negb (liquidationThreshold s <=? l) then Err ARITHMETIC_PANIC
  else if negb (p * r * (l - liquidationThreshold s) <=? MAX_UINT256) then Err ARITHMETIC_PANIC
  else Ok (tt, claim_registered sender now oid
                 (p * r * (l - liquidationThreshold s) / 10000) s).
Proof.
  unfold_contract. unfold claim_registered. norm.
  repeat split_head.
Qed.

Lemma updateVerification_flat sender user oid p l r v s :
  updateVerification sender user oid p l r v s =
  if negb (isMultiSigLoop sender (multiSigWallets s)) then Err (Revert "Not multi-sig wallet")
  else if paused s then Err PausedError
  else if negb (claimedOrders s user oid) then Err NotFoundError
  else
    let u := userPayouts s user in
    let index := orderIdToIndex u oid in
    if negb (index <? Z.of_nat (length (records u))) then Err (Revert "Order record not found")
    else match records u !! Z.to_nat index with
         | None => Err INDEX_PANIC
         | Some rec =>
           if negb (orderId rec =? oid) then Err (Revert "Order ID mismatch")
           else if negb (amount rec * r <=? MAX_UINT256) then Err ARITHMETIC_PANIC
           else Ok (tt, claim_verified user index (amount rec * r / 100) v s)
         end.
Proof.
  unfold_contract. unfold claim_verified. norm.
  repeat split_head.
Qed.

(** ** The registry entry of a claim *)

Lemma findClaim_inv s user oid rec :
  findClaim s user oid = Some rec ->
  claimedOrders s user oid = true /\
  (orderIdToIndex (userPayouts s user) oid
     <? Z.of_nat (length (records (userPayouts s user)))) = true /\
  records (userPayouts s user)
    !! Z.to_nat (orderIdToIndex (userPayouts s user) oid) = Some rec /\
  (orderId rec =? oid) = true.
Proof.
  unfold findClaim. intros H.
  destruct (claimedOrders s user oid); [|discriminate].
  cbn in H.
  destruct (_ <? _); [|discriminate].
  destruct (records _ !! _) as [r0|]; [|discriminate].
  destruct (orderId r0 =? oid) eqn:E; [|discriminate].
  injection H as ->. auto.
Qed.

Lemma findClaim_registered sender now oid est s :
  findClaim (claim_registered sender now oid est s) sender oid =
  Some {| orderId := oid; amount := est; timestamp := now; verified := false |}.
Proof.
  unfold findClaim, claim_registered. cbn.
  rewrite !fn_lookup_insert. cbn. rewrite !fn_lookup_insert.
  rewrite length_app, Nat2Z.inj_add. cbn.
  replace (_ <? _) with true by (symmetry; apply Z.ltb_lt; lia).
  rewrite Nat2Z.id, list_lookup_middle by reflexivity.
  cbn. now rewrite Z.eqb_refl.
Qed.

Lemma findClaim_verified s user oid rec pa v :
  findClaim s user oid = Some rec ->
  findClaim (claim_verified user (orderIdToIndex (userPayouts s user) oid) pa v s)
    user oid =
  Some {| orderId := orderId rec; amount := pa; timestamp := timestamp rec;
          verified := v |}.
Proof.
  intros H. apply findClaim_inv in H as (Hc & Hlt & Hl & Ho).
  unfold findClaim, claim_verified, update_record. cbn.
  rewrite Hc, !fn_lookup_insert. cbn.
  rewrite !length_alter, Hlt, !list_lookup_alter_eq, Hl. cbn.
  now rewrite Ho.
Qed.

(** ** Claim submission *)

(** A submission that passes every test goes through. *)
Lemma submitClaim_ok sender now oid p l r s :
  whitelistedUsers s sender = true ->
  blacklistedUsers s sender = false ->
  0 < p ->
  liquidationThreshold s < l ->
  0 < r <= 100 ->
  claimedOrders s sender oid = false ->
  paused s = false ->
  locked s = false ->
  p * r * (l - liquidationThreshold s) <= MAX_UINT256 ->
  submitClaim sender now oid p l r s
    = Ok (tt, claim_registered sender now oid
                (p * r * (l - liquidationThreshold s) / 10000) s).
Proof.
  intros Hw Hb Hp Hl [Hr0 Hr1] Hc Hpa Hlk Hfit.
  rewrite submitClaim_flat, Hw, Hb, Hlk, Hpa, Hc. cbn.
  rewrite (proj2 (Z.ltb_lt 0 p)) by lia.
  rewrite (proj2 (Z.ltb_lt _ l)) by lia.
  rewrite (proj2 (Z.ltb_lt 0 r)) by lia.
  rewrite (proj2 (Z.leb_le r 100)) by lia.
  rewrite (proj2 (Z.leb_le (p * r) MAX_UINT256)) by nia.
  rewrite (proj2 (Z.leb_le _ l)) by lia.
  rewrite (proj2 (Z.leb_le _ MAX_UINT256)) by lia.
  reflexivity.
Qed.

(** C3 (as amended).  A submission by a whitelisted, not blacklisted caller,
    with [principal > 0], [leverage > liquidationThreshold],
    [0 < insuranceRate <= 100], a fresh [(owner, claimId)], the contract not
    paused and the reentrancy flag free succeeds when the product
    [principal * insuranceRate * (leverage - liquidationThreshold)] is
    within 256 bits, and the stored estimated payout is then that product
    divided by 10000, truncated; when the product is beyond 256 bits the
    call aborts on arithmetic overflow. *)
Theorem submitClaim_estimatedPayout sender now oid p l r s :
  whitelistedUsers s sender = true ->
  blacklistedUsers s sender = false ->
  0 < p ->
  liquidationThreshold s < l ->
  0 < r <= 100 ->
  claimedOrders s sender oid = false ->
  paused s = false ->
  locked s = false ->
  (p * r * (l - liquidationThreshold s) <= MAX_UINT256 ->
   exists s',
     submitClaim sender now oid p l r s = Ok (tt, s') /\
     findClaim s' sender oid =
       Some {| orderId := oid;
               amount := p * r * (l - liquidationThreshold s) / 10000;
               timestamp := now;
               verified := false |}) /\
  (MAX_UINT256 < p * r * (l - liquidationThreshold s) ->
   submitClaim sender now oid p l r s = Err ARITHMETIC_PANIC).
Proof.
  intros Hw Hb Hp Hl Hr Hc Hpa Hlk. split.
  - intros Hfit. eexists. split; [|apply findClaim_registered].
    now apply submitClaim_ok.
  - intros Hover.
    rewrite submitClaim_flat, Hw, Hb, Hlk, Hpa, Hc. cbn.
    rewrite (proj2 (Z.ltb_lt 0 p)) by lia.
    rewrite (proj2 (Z.ltb_lt _ l)) by lia.
    rewrite (proj2 (Z.ltb_lt 0 r)) by lia.
    rewrite (proj2 (Z.leb_le r 100)) by lia.
    cbn.
    destruct (p * r <=? MAX_UINT256); [|reflexivity]. cbn.
    rewrite (proj2 (Z.leb_le _ l)) by lia.
    rewrite (proj2 (Z.leb_gt _ _)) by lia.
    reflexivity.
Qed.

Lemma submitClaim_estimatedPayout_witness :
  exists s',
    submitClaim alice 1700000000 42 1000 90 50 (funded 100) = Ok (tt, s') /\
    findClaim s' alice 42 =
      Some {| orderId := 42;
              amount := 1000 * 50 * (90 - liquidationThreshold (funded 100)) / 10000;
              timestamp := 1700000000;
              verified := false |}.
Proof.
  apply (submitClaim_estimatedPayout alice 1700000000 42 1000 90 50 (funded 100));
    closed.
Defined.

(** C3, the claim as stated fails: every listed precondition holds for
    this top-level submission, yet the checked multiplication overflows and
    the call aborts without storing anything. *)
Lemma submitClaim_overflow_counterexample :
  whitelistedUsers (funded 100) alice = true /\
  blacklistedUsers (funded 100) alice = false /\
  0 < 2 ^ 255 <= MAX_UINT256 /\
  liquidationThreshold (funded 100) < 90 /\
  0 < 100 <= 100 /\
  claimedOrders (funded 100) alice 42 = false /\
  paused (funded 100) = false /\
  locked (funded 100) = false /\
  submitClaim alice 1700000000 42 (2 ^ 255) 90 100 (funded 100)
    = Err ARITHMETIC_PANIC /\
  findClaim (step (submitClaim alice 1700000000 42 (2 ^ 255) 90 100) (funded 100))
    alice 42 = None.
Proof.
  repeat split; closed.
Qed.


(** C4 (as amended).  Once [(owner, claimId)] is in the registry, every
    further [submitClaim] of that owner for that id fails and leaves the
    storage, and with it the first record, as it was.  The error is
    [DuplicateClaimError] when the caller passes the modifiers (whitelisted,
    not blacklisted, reentrancy flag free, not paused), and otherwise the
    error of the first modifier that rejects the call. *)
Theorem resubmission_fails sender now oid p l r s :
  claimedOrders s sender oid = true ->
  submitClaim sender now oid p l r s
    = Err (submit_guard_error s sender DuplicateClaimError) /\
  step (submitClaim sender now oid p l r) s = s /\
  (whitelistedUsers s sender = true -> blacklistedUsers s sender = false ->
   locked s = false -> paused s = false ->
   submitClaim sender now oid p l r s = Err DuplicateClaimError).
Proof.
  intros Hc.
  assert (E : submitClaim sender now oid p l r s
              = Err (submit_guard_error s sender DuplicateClaimError)).
  { rewrite submitClaim_flat, Hc. unfold submit_guard_error.
    repeat split_head. }
  split; [exact E|]. split.
  - unfold step. now rewrite E.
  - intros Hw Hb Hlk Hpa. rewrite E. unfold submit_guard_error.
    now rewrite Hw, Hb, Hlk, Hpa.
Qed.

(** A submission that succeeds puts its [(owner, claimId)] in the registry. *)
Lemma submitClaim_registers sender now oid p l r s s' :
  submitClaim sender now oid p l r s = Ok (tt, s') ->
  claimedOrders s' sender oid = true.
Proof.
  rewrite submitClaim_flat.
  repeat (match goal with
          | |- context [if ?b then _ else _] => destruct b
          end; try discriminate).
  intros [= <-]. unfold claim_registered. cbn.
  now rewrite !fn_lookup_insert.
Qed.

Lemma resubmission_fails_witness :
  submitClaim alice 1700000001 42 2000 95 60 (submitted 100 1000 90 50)
    = Err (submit_guard_error (submitted 100 1000 90 50) alice DuplicateClaimError) /\
  step (submitClaim alice 1700000001 42 2000 95 60) (submitted 100 1000 90 50)
    = submitted 100 1000 90 50 /\
  (whitelistedUsers (submitted 100 1000 90 50) alice = true ->
   blacklistedUsers (submitted 100 1000 90 50) alice = false ->
   locked (submitted 100 1000 90 50) = false ->
   paused (submitted 100 1000 90 50) = false ->
   submitClaim alice 1700000001 42 2000 95 60 (submitted 100 1000 90 50)
     = Err DuplicateClaimError).
Proof.
  apply (resubmission_fails alice 1700000001 42 2000 95 60 (submitted 100 1000 90 50)).
  vm_compute. reflexivity.
Defined.

(** C4, the claim as stated fails: the owner resubmits order 42 after the
    contract was paused; the call is rejected by the pause modifier, which
    runs before the duplicate test, so the error is not
    [DuplicateClaimError]. *)
Lemma resubmission_paused_counterexample :
  claimedOrders (step (pause deployer) (submitted 100 1000 90 50)) alice 42 = true /\
  submitClaim alice 1700000001 42 1000 90 50
    (step (pause deployer) (submitted 100 1000 90 50)) = Err PausedError /\
  PausedError <> DuplicateClaimError.
Proof.
  repeat split; closed.
Qed.

(** ** Settlement *)



(** C5 (as amended).  For a claim whose verified flag is false, every call
    to [executePayout] fails and leaves the storage, hence the ledger
    balance and the claim record, unchanged.  The error is
    [NotVerifiedError] when the call passes the tests that run earlier
    (authorised validator, reentrancy flag free, not paused, claimant
    whitelisted and not blacklisted), and otherwise the error of the first
    of those tests that fails. *)
Theorem unverified_claim_not_paid cv sender user oid s rec :
  findClaim s user oid = Some rec ->
  verified rec = false ->
  executePayout cv sender user oid s
    = Err (settle_guard_error s sender (claimant_error s user NotVerifiedError)) /\
  contractBalance (step (executePayout cv sender user oid) s) = contractBalance s /\
  findClaim (step (executePayout cv sender user oid) s) user oid = Some rec /\
  (isMultiSigLoop sender (multiSigWallets s) = true ->
   locked s = false -> paused s = false ->
   whitelistedUsers s user = true -> blacklistedUsers s user = false ->
   executePayout cv sender user oid s = Err NotVerifiedError).
Proof.
  intros Hf Hv.
  pose proof Hf as Hf'.
  apply findClaim_inv in Hf' as (Hc & Hlt & Hl & Ho).
  assert (E : executePayout cv sender user oid s
    = Err (settle_guard_error s sender (claimant_error s user NotVerifiedError))).
  { rewrite executePayout_flat. cbn zeta. rewrite Hc, Hlt, Hl, Ho, Hv.
    unfold settle_guard_error, claimant_error. repeat split_head. }
  split; [exact E|]. unfold step. rewrite E. cbn.
  repeat split; try assumption.
  intros Hm Hlk Hp Hw Hb.
  unfold settle_guard_error, claimant_error.
  now rewrite Hm, Hlk, Hp, Hw, Hb.
Qed.

Lemma unverified_claim_not_paid_witness :
  executePayout (passive true) 10 alice 42 (submitted 100 1000 90 50)
    = Err NotVerifiedError /\
  contractBalance (step (executePayout (passive true) 10 alice 42)
                     (submitted 100 1000 90 50)) = 100.
Proof.
  destruct (unverified_claim_not_paid (passive true) 10 alice 42
              (submitted 100 1000 90 50)
              {| orderId := 42; amount := 50; timestamp := 1700000000;
                 verified := false |})
    as (_ & Hbal & _ & Herr); [closed | closed |].
  split; [apply Herr; closed | exact Hbal].
Defined.

(** C5, the claim as stated fails: an authorised validator settles the
    unverified order 42 while the contract is paused; the pause modifier
    rejects the call before the verified flag is read. *)
Lemma unverified_paused_counterexample :
  findClaim (step (pause deployer) (submitted 100 1000 90 50)) alice 42
    = Some {| orderId := 42; amount := 50; timestamp := 1700000000;
              verified := false |} /\
  isMultiSigLoop 10 (multiSigWallets (step (pause deployer) (submitted 100 1000 90 50)))
    = true /\
  executePayout (passive true) 10 alice 42
    (step (pause deployer) (submitted 100 1000 90 50)) = Err PausedError /\
  PausedError <> NotVerifiedError.
Proof.
  repeat split; closed.
Qed.

(** C8 (as amended).  For a call that reaches the balance check (authorised
    validator, flag free, not paused, claimant eligible, claim verified
    with a positive amount), [executePayout] fails with
    [InsufficientBalanceError] exactly when the gross [payoutAmount] of the
    claim, before the fee is taken off, exceeds the ledger balance; the
    check passes whenever [payoutAmount <= balance], and then the net
    [transferAmount] is within the balance too. *)
Theorem balance_check_on_gross_amount cv sender user oid s rec :
  isMultiSigLoop sender (multiSigWallets s) = true ->
  locked s = false ->
  paused s = false ->
  whitelistedUsers s user = true ->
  blacklistedUsers s user = false ->
  findClaim s user oid = Some rec ->
  verified rec = true ->
  0 < amount rec ->
  0 <= feePercentage s ->
  (executePayout cv sender user oid s = Err InsufficientBalanceError
     <-> contractBalance s < amount rec) /\
  (amount rec <= contractBalance s ->
     transferAmountOf s (amount rec) <= contractBalance s).
Proof.
  intros Hm Hlk Hp Hw Hb Hf Hv Hpos Hfee.
  apply findClaim_inv in Hf as (Hc & Hlt & Hl & Ho).
  split.
  - rewrite executePayout_flat. cbn zeta.
    rewrite Hm, Hlk, Hp, Hw, Hb, Hc, Hlt, Hl, Ho, Hv. cbn.
    replace (0 <? amount rec) with true by (symmetry; apply Z.ltb_lt; lia). cbn.
    destruct (amount rec <=? contractBalance s) eqn:E; cbn.
    + apply Z.leb_le in E. split; [|lia].
      repeat (match goal with
              | |- context [if ?b then _ else _] => destruct b
              | |- context [let '(_, _) := ?p in _] => destruct p
              end; cbn; try discriminate).
    + apply Z.leb_gt in E. split; [intros _; lia | reflexivity].
  - intros Hle. unfold transferAmountOf, feeOf.
    assert (0 <= amount rec * feePercentage s / 100)
      by (apply Z.div_pos; nia).
    lia.
Qed.

Lemma balance_check_on_gross_amount_witness :
  (executePayout (passive true) 10 alice 42 (approved 100 1000 90 50 50)
     = Err InsufficientBalanceError
     <-> contractBalance (approved 100 1000 90 50 50) < 25) /\
  (25 <= contractBalance (approved 100 1000 90 50 50) ->
     transferAmountOf (approved 100 1000 90 50 50) 25
       <= contractBalance (approved 100 1000 90 50 50)).
Proof.
  apply (balance_check_on_gross_amount (passive true) 10 alice 42
           (approved 100 1000 90 50 50)
           {| orderId := 42; amount := 25; timestamp := 1700000000;
              verified := true |}); closed.
Defined.

(** C8, the claim as stated fails: a verified claim of 100 against a
    ledger of 96 at a fee of 5 percent.  The net transfer would be 95,
    which the ledger covers, yet the call fails with
    [InsufficientBalanceError] because the check compares the gross 100. *)
Lemma net_amount_covered_counterexample :
  findClaim (approved 96 10000 81 100 100) alice 42
    = Some {| orderId := 42; amount := 100; timestamp := 1700000000;
              verified := true |} /\
  contractBalance (approved 96 10000 81 100 100) = 96 /\
  transferAmountOf (approved 96 10000 81 100 100) 100 = 95 /\
  95 <= contractBalance (approved 96 10000 81 100 100) /\
  executePayout (passive true) 10 alice 42 (approved 96 10000 81 100 100)
    = Err InsufficientBalanceError.
Proof.
  repeat split; closed.
Qed.

(** ** Pause *)

Lemma copyRecords_all rs from :
  copyRecords rs from (length rs - from)%nat = drop from rs.
Proof.
  remember (length rs - from)%nat as n eqn:En.
  revert from En. induction n as [|n IH]; intros from En; cbn.
  - symmetry. apply drop_ge. lia.
  - destruct (rs !! from) as [r|] eqn:E.
    + rewrite IH by lia. symmetry. now apply drop_S.
    + apply lookup_ge_None in E. lia.
Qed.

(** The copy loop of [getUserPayouts] returns the stored records, in order. *)
Lemma getUserPayouts_records user s :
  getUserPayouts user s = records (userPayouts s user).
Proof.
  unfold getUserPayouts.
  rewrite <- (Nat.sub_0_r (length _)) at 1.
  now rewrite copyRecords_all.
Qed.

(** C7 (as amended).  While the contract is paused, [submitClaim] and
    [executePayout] always fail and change nothing.  The error is
    [PausedError] when the call passes the modifiers that run before the
    pause test ([submitClaim]: caller whitelisted, not blacklisted, flag
    free; [executePayout]: caller an authorised validator, flag free), and
    otherwise the error of the first of those that fails.  The read-only
    queries (records of a user, claimed flag, ledger balance, threshold,
    fee, quorum size) take no notice of the pause switch. *)
Theorem paused_halts_mutation cv sender now oid p l r validator user oid' s :
  paused s = true ->
  submitClaim sender now oid p l r s
    = Err (submit_guard_error s sender PausedError) /\
  executePayout cv validator user oid' s
    = Err (settle_guard_error s validator PausedError) /\
  step (submitClaim sender now oid p l r) s = s /\
  step (executePayout cv validator user oid') s = s /\
  (whitelistedUsers s sender = true -> blacklistedUsers s sender = false ->
   locked s = false ->
   submitClaim sender now oid p l r s = Err PausedError) /\
  (isMultiSigLoop validator (multiSigWallets s) = true -> locked s = false ->
   executePayout cv validator user oid' s = Err PausedError) /\
  (forall b,
     getUserPayouts user (set_paused b s) = getUserPayouts user s /\
     isOrderClaimed user oid' (set_paused b s) = isOrderClaimed user oid' s /\
     contractBalance (set_paused b s) = contractBalance s /\
     liquidationThreshold (set_paused b s) = liquidationThreshold s /\
     feePercentage (set_paused b s) = feePercentage s /\
     minSignatures (set_paused b s) = minSignatures s).
Proof.
  intros Hp.
  assert (E1 : submitClaim sender now oid p l r s
               = Err (submit_guard_error s sender PausedError)).
  { rewrite submitClaim_flat, Hp. unfold submit_guard_error. rewrite Hp.
    repeat split_head. }
  assert (E2 : executePayout cv validator user oid' s
               = Err (settle_guard_error s validator PausedError)).
  { rewrite executePayout_flat, Hp. unfold settle_guard_error. rewrite Hp.
    repeat split_head. }
  unfold step. rewrite E1, E2. cbn.
  repeat split; try reflexivity.
  - intros Hw Hb Hlk. unfold submit_guard_error. now rewrite Hw, Hb, Hlk, Hp.
  - intros Hm Hlk. unfold settle_guard_error. now rewrite Hm, Hlk, Hp.
Qed.

Lemma paused_halts_mutation_witness :
  submitClaim alice 1700000002 43 1000 90 50
    (step (pause deployer) (approved 100 1000 90 50 50)) = Err PausedError /\
  executePayout (passive true) 10 alice 42
    (step (pause deployer) (approved 100 1000 90 50 50)) = Err PausedError /\
  getUserPayouts alice (step (pause deployer) (approved 100 1000 90 50 50))
    = [{| orderId := 42; amount := 25; timestamp := 1700000000; verified := true |}].
Proof.
  destruct (paused_halts_mutation (passive true) alice 1700000002 43 1000 90 50
              10 alice 42 (step (pause deployer) (approved 100 1000 90 50 50)))
    as (_ & _ & _ & _ & Hs & He & _); [closed|].
  split; [apply Hs; closed | split; [apply He; closed | closed]].
Defined.

(** C7, the claim as stated fails: while paused, a caller that is not on
    the whitelist is turned away by [whitelistedOnly], and a caller that is
    not a validator by [onlyMultiSig]; both run before the pause test, so
    neither error is [PausedError]. *)
Lemma paused_other_error_counterexample :
  paused (step (pause deployer) (approved 100 1000 90 50 50)) = true /\
  submitClaim outsider 1700000002 43 1000 90 50
    (step (pause deployer) (approved 100 1000 90 50 50))
    = Err (Revert "User not whitelisted") /\
  executePayout (passive true) outsider alice 42
    (step (pause deployer) (approved 100 1000 90 50 50))
    = Err (Revert "Not multi-sig wallet") /\
  Revert "User not whitelisted" <> PausedError /\
  Revert "Not multi-sig wallet" <> PausedError.
Proof.
  repeat split; closed.
Qed.

(** ** Reentrancy *)


Lemma executePayout_locked cv sender user oid s :
  locked s = true ->
  executePayout cv sender user oid s = Err (settle_guard_error s sender ReentrancyError).
Proof.
  intros Hlk. rewrite executePayout_flat, Hlk.
  unfold settle_guard_error. rewrite Hlk. repeat split_head.
Qed.

Lemma withdraw_locked cv sender a s :
  locked s = true ->
  withdraw cv sender a s = Err (settle_guard_error s sender ReentrancyError).
Proof.
  intros Hlk. unfold_contract. unfold settle_guard_error. norm.
  destruct (isMultiSigLoop _ _); cbn; [|reflexivity].
  now rewrite Hlk.
Qed.

Lemma submitClaim_locked sender now oid p l r s :
  locked s = true ->
  submitClaim sender now oid p l r s = Err (submit_guard_error s sender ReentrancyError).
Proof.
  intros Hlk. rewrite submitClaim_flat, Hlk.
  unfold submit_guard_error. rewrite Hlk. repeat split_head.
Qed.

(** While the lock is held no nested call reaches a transfer, so the callee
    a nested call would hand control to plays no part. *)
Lemma dispatch_locked_callee cv1 cv2 m s :
  locked s = true -> dispatch cv1 m s = dispatch cv2 m s.
Proof.
  intros Hlk. unfold dispatch. destruct (msg_call m); try reflexivity.
  - now rewrite !executePayout_locked.
  - now rewrite !withdraw_locked.
Qed.

(** A nested call into a guarded entry point changes nothing. *)
Lemma dispatch_guarded_locked cv m s :
  locked s = true -> guarded (msg_call m) = true ->
  storage_after s (dispatch cv m s) = s.
Proof.
  intros Hlk Hg. unfold dispatch.
  destruct (msg_call m); try discriminate.
  - now rewrite submitClaim_locked.
  - now rewrite executePayout_locked.
  - now rewrite withdraw_locked.
Qed.

Lemma run_callbacks_guarded ms s :
  locked s = true ->
  Forall (fun m => guarded (msg_call m) = true) ms ->
  run_callbacks ms s = s.
Proof.
  intros Hlk H. unfold run_callbacks.
  induction H as [|m ms Hm _ IH]; cbn; [reflexivity|].
  now rewrite dispatch_guarded_locked.
Qed.

(** A recipient that only tries to re-enter guarded entry points is inert. *)
Lemma reentrant_recipient_inert r :
  Forall (fun m => guarded (msg_call m) = true) (callbacks r) ->
  inert (recipient_call r).
Proof.
  intros H to value s Hlk. cbn. now apply run_callbacks_guarded.
Qed.

(** [executePayout] consults the callee on storage with the lock held only. *)
Lemma executePayout_while_locked cv sender user oid s :
  executePayout cv sender user oid s
    = executePayout (while_locked cv) sender user oid s.
Proof.
  rewrite !executePayout_flat. unfold while_locked. cbn. reflexivity.
Qed.

(** Two callees that agree on locked storage settle alike. *)
Lemma executePayout_callee_ext cv1 cv2 sender user oid s :
  (forall to value st, locked st = true -> cv1 to value st = cv2 to value st) ->
  executePayout cv1 sender user oid s = executePayout cv2 sender user oid s.
Proof.
  intros H. rewrite !executePayout_flat. cbn zeta.
  destruct (records _ !! _) as [rec|]; [|reflexivity].
  rewrite H by reflexivity. reflexivity.
Qed.

(** What a settlement that succeeds went through. *)
Lemma executePayout_Ok cv sender user oid s s' :
  executePayout cv sender user oid s = Ok (tt, s') ->
  exists rec s1,
    isMultiSigLoop sender (multiSigWallets s) = true /\
    locked s = false /\ paused s = false /\
    whitelistedUsers s user = true /\ blacklistedUsers s user = false /\
    findClaim s user oid = Some rec /\
    verified rec = true /\
    0 < amount rec <= contractBalance s /\
    amount rec * feePercentage s <= MAX_UINT256 /\
    0 <= transferAmountOf s (amount rec) <= contractBalance s /\
    cv user (transferAmountOf s (amount rec))
       (in_flight s (transferAmountOf s (amount rec))) = (true, s1) /\
    s' = set_locked false s1.
Proof.
  rewrite executePayout_flat. unfold findClaim. cbn zeta. intros H.
  repeat match type of H with
         | (if negb ?b then _ else _) = _ =>
             destruct b eqn:?; cbn [negb] in H; [|discriminate H]
         | (if ?b then _ else _) = _ =>
             destruct b eqn:?; [discriminate H|]
         end.
  destruct (records _ !! _) as [rec|]; [|discriminate H].
  repeat match type of H with
         | (if negb ?b then _ else _) = _ =>
             destruct b eqn:?; cbn [negb] in H; [|discriminate H]
         end.
  destruct (cv _ _ _) as [[|] s1] eqn:Ecv; [|discriminate H].
  injection H as <-.
  exists rec, s1. unfold in_flight, transferAmountOf, feeOf in *.
  repeat match goal with
         | E : (_ <? _) = true |- _ => apply Z.ltb_lt in E
         | E : (_ <=? _) = true |- _ => apply Z.leb_le in E
         end.
  repeat split; auto; lia.
Qed.

Lemma executePayout_releases cv sender user oid s :
  locked s = false ->
  locked (step (executePayout cv sender user oid) s) = false.
Proof.
  intros Hlk. unfold step.
  destruct (executePayout cv sender user oid s) as [[[] s']|e] eqn:E; cbn;
    [|assumption].
  apply executePayout_Ok in E as (rec & s1 & H). now decompose [and] H; subst.
Qed.

(** C6 (as amended).  While an [executePayout] is in flight (the flag is
    held), a nested call into [executePayout] fails at once and changes
    nothing: with [ReentrancyError] when the nested caller is an authorised
    validator, and with the authorisation error otherwise, because
    [onlyMultiSig] runs before [noReentrant].  The recipient of a payout
    only ever runs on storage with the flag held, so an outer settlement
    whose recipient re-enters [executePayout] ends exactly as if the
    recipient had not; and when the outer call completes or aborts the flag
    is free again. *)
Theorem nested_settlement_rejected cv sender user oid s :
  (locked s = true ->
     executePayout cv sender user oid s
       = Err (if isMultiSigLoop sender (multiSigWallets s)
              then ReentrancyError else Revert "Not multi-sig wallet") /\
     step (executePayout cv sender user oid) s = s) /\
  executePayout cv sender user oid s
    = executePayout (while_locked cv) sender user oid s /\
  (forall r : Recipient,
     Forall (fun m => exists u o, msg_call m = CallExecutePayout u o) (callbacks r) ->
     executePayout (recipient_call r) sender user oid s
       = executePayout (passive (accepts r)) sender user oid s) /\
  (locked s = false ->
     locked (step (executePayout cv sender user oid) s) = false).
Proof.
  split; [|split; [|split]].
  - intros Hlk. rewrite (executePayout_locked _ _ _ _ _ Hlk).
    unfold step. rewrite (executePayout_locked _ _ _ _ _ Hlk).
    unfold settle_guard_error. rewrite Hlk.
    destruct (isMultiSigLoop _ _); cbn; auto.
  - apply executePayout_while_locked.
  - intros r Hr. apply executePayout_callee_ext.
    intros to value st Hlk. unfold recipient_call, passive. f_equal.
    apply run_callbacks_guarded; [assumption|].
    eapply Forall_impl; [exact Hr|].
    intros m (u & o & ->). reflexivity.
  - apply executePayout_releases.
Qed.

Lemma nested_settlement_rejected_witness :
  executePayout (passive true) 10 alice 42
    (in_flight (approved 100 1000 90 50 50) 24) = Err ReentrancyError /\
  executePayout
    (recipient_call
       {| accepts := true;
          callbacks := [ {| msg_sender := alice; block_timestamp := 1700000003;
                            msg_call := CallExecutePayout alice 42 |};
                         {| msg_sender := 10; block_timestamp := 1700000003;
                            msg_call := CallExecutePayout alice 42 |} ] |})
    10 alice 42 (approved 100 1000 90 50 50)
  = executePayout (passive true) 10 alice 42 (approved 100 1000 90 50 50) /\
  locked (step (executePayout (passive true) 10 alice 42)
            (approved 100 1000 90 50 50)) = false.
Proof.
  split; [|split].
  - destruct (nested_settlement_rejected (passive true) 10 alice 42
                (in_flight (approved 100 1000 90 50 50) 24)) as (H & _).
    destruct H as (H & _); [closed|]. exact H.
  - destruct (nested_settlement_rejected (passive true) 10 alice 42
                (approved 100 1000 90 50 50)) as (_ & _ & H & _).
    apply (H {| accepts := true;
                callbacks := [ {| msg_sender := alice; block_timestamp := 1700000003;
                                  msg_call := CallExecutePayout alice 42 |};
                               {| msg_sender := 10; block_timestamp := 1700000003;
                                  msg_call := CallExecutePayout alice 42 |} ] |}).
    repeat constructor; eexists; eexists; reflexivity.
  - destruct (nested_settlement_rejected (passive true) 10 alice 42
                (approved 100 1000 90 50 50)) as (_ & _ & _ & H).
    apply H. closed.
Defined.

(** C6, the claim as stated fails: the payout of order 42 is in flight
    (its recipient runs on [in_flight _ 24], see [executePayout_Ok]) and the
    recipient calls [executePayout] again; the recipient is not a
    validator, so the nested call is turned away by [onlyMultiSig], which
    runs before the reentrancy test, and the error is not
    [ReentrancyError]. *)
Lemma nested_call_authorization_counterexample :
  locked (in_flight (approved 100 1000 90 50 50) 24) = true /\
  executePayout (passive true) alice alice 42
    (in_flight (approved 100 1000 90 50 50) 24)
    = Err (Revert "Not multi-sig wallet") /\
  Revert "Not multi-sig wallet" <> ReentrancyError.
Proof.
  repeat split; closed.
Qed.

(** ** The ledger under a sequence of settlements *)




(** With an inert recipient a settlement that succeeds changes the ledger
    balance and nothing else. *)
Lemma executePayout_inert_step cv x s s' :
  inert cv ->
  executePayout cv (validator x) (claimant x) (claim x) s = Ok (tt, s') ->
  s' = set_contractBalance (contractBalance s - net_of s x) s /\
  0 <= net_of s x <= contractBalance s.
Proof.
  intros Hi H.
  apply executePayout_Ok in H
    as (rec & s1 & _ & Hlk & _ & _ & _ & Hf & _ & _ & _ & Hnet & Hcv & ->).
  unfold net_of. rewrite Hf. split; [|exact Hnet].
  specialize (Hi (claimant x) (transferAmountOf s (amount rec))
                 (in_flight s (transferAmountOf s (amount rec))) eq_refl).
  rewrite Hcv in Hi. cbn in Hi. subst s1.
  unfold in_flight. destruct s; cbn in *. now subst.
Qed.





Lemma passive_inert b : inert (passive b).
Proof. intros to value s _. reflexivity. Qed.



(** ** A paid claim stays payable *)

(** After a settlement of a claim, a further settlement of the same claim
    by any validator succeeds whenever the ledger still covers the gross
    amount, and debits the net amount once more. *)
Lemma paid_claim_pays_again sender sender' user oid s s' rec :
  executePayout (passive true) sender user oid s = Ok (tt, s') ->
  findClaim s user oid = Some rec ->
  isMultiSigLoop sender' (multiSigWallets s) = true ->
  0 <= feePercentage s ->
  amount rec <= contractBalance s' ->
  exists s'',
    executePayout (passive true) sender' user oid s' = Ok (tt, s'') /\
    contractBalance s' = contractBalance s - transferAmountOf s (amount rec) /\
    contractBalance s'' = contractBalance s' - transferAmountOf s (amount rec).
Proof.
  intros H Hf Hm Hfee Hcover.
  pose proof H as H0.
  apply executePayout_Ok in H0
    as (rec' & s1 & _ & Hlk & Hp & Hw & Hb & Hf' & Hv & Hpos & Hfit & Hnet & _ & _).
  rewrite Hf in Hf'. injection Hf' as <-.
  apply (executePayout_inert_step (passive true)
           {| validator := sender; claimant := user; claim := oid |})
    in H as [-> _]; [|apply passive_inert].
  unfold net_of in *. cbn [claimant claim] in *. rewrite Hf in *.
  cbn [contractBalance set_contractBalance] in Hcover.
  apply findClaim_inv in Hf as (Hc & Hlt & Hl & Ho).
  eexists. split; [|split; [reflexivity|]].
  - rewrite executePayout_flat. cbn.
    rewrite Hm, Hlk, Hp, Hw, Hb, Hc, Hlt, Hl. cbn. rewrite Ho, Hv. cbn.
    unfold transferAmountOf, feeOf in *. cbn.
    assert (0 <= amount rec * feePercentage s / 100)
      by (apply Z.div_pos; nia).
    rewrite (proj2 (Z.ltb_lt 0 (amount rec))) by lia.
    rewrite (proj2 (Z.leb_le (amount rec) _)) by lia.
    rewrite (proj2 (Z.leb_le _ MAX_UINT256)) by lia.
    rewrite (proj2 (Z.leb_le (amount rec * feePercentage s / 100) (amount rec)))
      by lia.
    rewrite (proj2 (Z.leb_le (amount rec - amount rec * feePercentage s / 100) _))
      by lia.
    cbn. reflexivity.
  - reflexivity.
Qed.

(** C1, what the contract does: order 42, verified at 25 against a ledger
    of 100, is settled by validator 10 and then once more by validator 11.
    Both calls succeed and each takes the net 24 from the ledger; nothing
    in the storage records that the claim was paid. *)
Theorem claim_paid_twice :
  exists s1 s2,
    executePayout (passive true) 10 alice 42 (approved 100 1000 90 50 50)
      = Ok (tt, s1) /\
    contractBalance s1 = 76 /\
    executePayout (passive true) 11 alice 42 s1 = Ok (tt, s2) /\
    contractBalance s2 = 52 /\
    findClaim s2 alice 42 = findClaim (approved 100 1000 90 50 50) alice 42.
Proof.
  eexists. eexists.
  split; [vm_compute; reflexivity|].
  split; [reflexivity|].
  split; [vm_compute; reflexivity|].
  split; reflexivity.
Qed.

(** ** Verification and the worked example *)

(** The verification of an existing claim by an authorised validator goes
    through as soon as the rescaled amount fits 256 bits. *)
Lemma updateVerification_ok validator user oid p l r v s rec :
  isMultiSigLoop validator (multiSigWallets s) = true ->
  paused s = false ->
  findClaim s user oid = Some rec ->
  amount rec * r <= MAX_UINT256 ->
  updateVerification validator user oid p l r v s
    = Ok (tt, claim_verified user (orderIdToIndex (userPayouts s user) oid)
                (amount rec * r / 100) v s).
Proof.
  intros Hm Hp Hf Hfit.
  apply findClaim_inv in Hf as (Hc & Hlt & Hl & Ho).
  rewrite updateVerification_flat. cbn zeta.
  rewrite Hm, Hp, Hc, Hlt, Hl, Ho. cbn.
  now rewrite (proj2 (Z.leb_le _ _) Hfit).
Qed.


(** A settlement that passes every test debits the ledger, hands control
    to the claimant on the in-flight storage, and then either releases the
    lock or reverts on the claimant's refusal. *)
Lemma executePayout_reaches_transfer cv validator user oid s rec :
  isMultiSigLoop validator (multiSigWallets s) = true ->
  locked s = false ->
  paused s = false ->
  whitelistedUsers s user = true ->
  blacklistedUsers s user = false ->
  findClaim s user oid = Some rec ->
  verified rec = true ->
  0 < amount rec <= contractBalance s ->
  0 <= feePercentage s <= 100 ->
  amount rec * feePercentage s <= MAX_UINT256 ->
  executePayout cv validator user oid s
    = let '(success, s1) :=
        cv user (transferAmountOf s (amount rec))
           (in_flight s (transferAmountOf s (amount rec))) in
      if success then Ok (tt, set_locked false s1)
      else Err (Revert "Payout failed").
Proof.
  intros Hm Hlk Hp Hw Hb Hf Hv Hpos Hfee Hfit.
  apply findClaim_inv in Hf as (Hc & Hlt & Hl & Ho).
  rewrite executePayout_flat. cbn zeta.
  rewrite Hm, Hlk, Hp, Hw, Hb, Hc, Hlt, Hl, Ho, Hv. cbn.
  unfold in_flight, transferAmountOf, feeOf.
  assert (0 <= amount rec * feePercentage s / 100 <= amount rec).
  { split; [apply Z.div_pos; nia|].
    apply Z.div_le_upper_bound; nia. }
  rewrite (proj2 (Z.ltb_lt 0 (amount rec))) by lia.
  rewrite (proj2 (Z.leb_le (amount rec) _)) by lia.
  rewrite (proj2 (Z.leb_le _ MAX_UINT256)) by lia.
  rewrite (proj2 (Z.leb_le (amount rec * feePercentage s / 100) (amount rec)))
    by lia.
  rewrite (proj2 (Z.leb_le (amount rec - amount rec * feePercentage s / 100) _))
    by lia.
  reflexivity.
Qed.

(** With a recipient that takes the payout and does nothing else, such a
    settlement goes through and changes the ledger balance only. *)
Lemma executePayout_ok validator user oid s rec :
  isMultiSigLoop validator (multiSigWallets s) = true ->
  locked s = false ->
  paused s = false ->
  whitelistedUsers s user = true ->
  blacklistedUsers s user = false ->
  findClaim s user oid = Some rec ->
  verified rec = true ->
  0 < amount rec <= contractBalance s ->
  0 <= feePercentage s <= 100 ->
  amount rec * feePercentage s <= MAX_UINT256 ->
  executePayout (passive true) validator user oid s
    = Ok (tt, set_contractBalance
                (contractBalance s - transferAmountOf s (amount rec)) s).
Proof.
  intros Hm Hlk Hp Hw Hb Hf Hv Hpos Hfee Hfit.
  rewrite (executePayout_reaches_transfer _ _ _ _ _ rec) by assumption.
  unfold passive, in_flight. destruct s; cbn in *. now subst.
Qed.

(** C9.  With [liquidationThreshold = 80] and [feePercentage = 5], in any
    storage where the owner may submit, the validator may act and the
    ledger holds at least 25: [submitClaim] with principal 1000, leverage
    90 and insurance rate 50 stores an estimated payout of 50; the
    verification at rate 50 that follows stores a payout amount of 25; the
    settlement that follows computes a fee of 1 and a transfer amount of 24
    and leaves the ledger exactly 24 lower. *)
Theorem worked_example sender validator now oid s :
  liquidationThreshold s = 80 ->
  feePercentage s = 5 ->
  whitelistedUsers s sender = true ->
  blacklistedUsers s sender = false ->
  isMultiSigLoop validator (multiSigWallets s) = true ->
  paused s = false ->
  locked s = false ->
  claimedOrders s sender oid = false ->
  25 <= contractBalance s ->
  exists s1 s2 s3,
    submitClaim sender now oid 1000 90 50 s = Ok (tt, s1) /\
    findClaim s1 sender oid
      = Some {| orderId := oid; amount := 50; timestamp := now; verified := false |} /\
    updateVerification validator sender oid 1000 90 50 true s1 = Ok (tt, s2) /\
    findClaim s2 sender oid
      = Some {| orderId := oid; amount := 25; timestamp := now; verified := true |} /\
    feeOf s2 25 = 1 /\
    transferAmountOf s2 25 = 24 /\
    executePayout (passive true) validator sender oid s2 = Ok (tt, s3) /\
    contractBalance s3 = contractBalance s - 24.
Proof.
  intros Ht Hfee Hw Hb Hm Hp Hlk Hc Hbal.
  pose proof (submitClaim_ok sender now oid 1000 90 50 s Hw Hb) as E1.
  rewrite Ht in E1.
  specialize (E1 ltac:(lia) ltac:(lia) ltac:(lia) Hc Hp Hlk ltac:(closed)).
  change (1000 * 50 * (90 - 80) / 10000) with 50 in E1.
  set (s1 := claim_registered sender now oid 50 s) in *.
  pose proof (findClaim_registered sender now oid 50 s) as F1. fold s1 in F1.
  pose proof (updateVerification_ok validator sender oid 1000 90 50 true s1
                {| orderId := oid; amount := 50; timestamp := now;
                   verified := false |}) as E2.
  specialize (E2 ltac:(subst s1; exact Hm) ltac:(subst s1; exact Hp) F1
                 ltac:(closed)).
  change (amount _ * 50 / 100) with 25 in E2.
  set (s2 := claim_verified sender (orderIdToIndex (userPayouts s1 sender) oid)
               25 true s1) in *.
  pose proof (findClaim_verified s1 sender oid _ 25 true F1) as F2.
  cbn [orderId timestamp] in F2. fold s2 in F2.
  assert (B2 : contractBalance s2 = contractBalance s) by (subst s2 s1; reflexivity).
  assert (Fee2 : feePercentage s2 = 5) by (subst s2 s1; exact Hfee).
  pose proof (executePayout_ok validator sender oid s2
                {| orderId := oid; amount := 25; timestamp := now;
                   verified := true |}) as E3.
  specialize (E3 ltac:(subst s2 s1; exact Hm) ltac:(subst s2 s1; reflexivity)
                 ltac:(subst s2 s1; exact Hp) ltac:(subst s2 s1; exact Hw)
                 ltac:(subst s2 s1; exact Hb) F2 eq_refl).
  cbn [amount] in E3. rewrite B2, Fee2 in E3.
  specialize (E3 ltac:(lia) ltac:(lia) ltac:(closed)).
  exists s1, s2, (set_contractBalance (contractBalance s - transferAmountOf s2 25) s2).
  assert (T : transferAmountOf s2 25 = 24)
    by (unfold transferAmountOf, feeOf; rewrite Fee2; reflexivity).
  repeat split; try assumption.
  - unfold feeOf. rewrite Fee2. reflexivity.
  - cbn. rewrite T. reflexivity.
Qed.

Lemma worked_example_witness :
  exists s1 s2 s3,
    submitClaim alice 1700000000 42 1000 90 50 (funded 100) = Ok (tt, s1) /\
    findClaim s1 alice 42
      = Some {| orderId := 42; amount := 50; timestamp := 1700000000;
                verified := false |} /\
    updateVerification 10 alice 42 1000 90 50 true s1 = Ok (tt, s2) /\
    findClaim s2 alice 42
      = Some {| orderId := 42; amount := 25; timestamp := 1700000000;
                verified := true |} /\
    feeOf s2 25 = 1 /\
    transferAmountOf s2 25 = 24 /\
    executePayout (passive true) 10 alice 42 s2 = Ok (tt, s3) /\
    contractBalance s3 = contractBalance (funded 100) - 24.
Proof.
  apply (worked_example alice 10 1700000000 42 (funded 100)); closed.
Defined.

(** Truncating twice never gives more than truncating once. *)
Lemma rescale_twice_le a r :
  0 <= a -> 0 <= r ->
  a * r / 100 * r / 100 <= a * r ^ 2 / 10000.
Proof.
  intros Ha Hr.
  replace (a * r ^ 2) with (a * r * r) by ring.
  change 10000 with (100 * 100).
  rewrite <- Z.div_div by lia.
  apply Z.div_le_mono; [lia|].
  apply Z.div_le_lower_bound; [lia|].
  assert (100 * (a * r / 100) <= a * r) by (apply Z.mul_div_le; lia).
  nia.
Qed.

(** C10 (as amended).  For an existing claim, a call to
    [updateVerification] that goes through (authorised validator, not
    paused, rescaled amount within 256 bits) overwrites the stored amount
    with [currentAmount * r / 100] and the flag with [v], whether [v] is
    true or false.  A second call with the same rate starts from the amount
    the first one stored, so it leaves
    [(originalAmount * r / 100) * r / 100], truncated after each division;
    this is never more than [originalAmount * r^2 / 10000]. *)
Theorem verification_rescales_stored_amount validator user oid p l r v p' l' v' s rec :
  isMultiSigLoop validator (multiSigWallets s) = true ->
  paused s = false ->
  findClaim s user oid = Some rec ->
  amount rec * r <= MAX_UINT256 ->
  amount rec * r / 100 * r <= MAX_UINT256 ->
  exists s1 s2,
    updateVerification validator user oid p l r v s = Ok (tt, s1) /\
    findClaim s1 user oid
      = Some {| orderId := orderId rec; amount := amount rec * r / 100;
                timestamp := timestamp rec; verified := v |} /\
    updateVerification validator user oid p' l' r v' s1 = Ok (tt, s2) /\
    findClaim s2 user oid
      = Some {| orderId := orderId rec; amount := amount rec * r / 100 * r / 100;
                timestamp := timestamp rec; verified := v' |} /\
    (0 <= amount rec -> 0 <= r ->
     amount rec * r / 100 * r / 100 <= amount rec * r ^ 2 / 10000).
Proof.
  intros Hm Hp Hf Hfit1 Hfit2.
  pose proof (updateVerification_ok validator user oid p l r v s rec
                Hm Hp Hf Hfit1) as E1.
  pose proof (findClaim_verified s user oid rec (amount rec * r / 100) v Hf) as F1.
  set (s1 := claim_verified user _ (amount rec * r / 100) v s) in *.
  pose proof (updateVerification_ok validator user oid p' l' r v' s1 _
                Hm Hp F1 Hfit2) as E2.
  pose proof (findClaim_verified s1 user oid _ (amount rec * r / 100 * r / 100) v' F1)
    as F2.
  cbn [orderId amount timestamp] in E2, F2.
  eexists. eexists.
  split; [exact E1|]. split; [exact F1|]. split; [exact E2|]. split; [exact F2|].
  apply rescale_twice_le.
Qed.

Lemma verification_rescales_stored_amount_witness :
  exists s1 s2,
    updateVerification 10 alice 42 1000 90 50 false (submitted 100 1000 90 50)
      = Ok (tt, s1) /\
    findClaim s1 alice 42
      = Some {| orderId := 42; amount := 25; timestamp := 1700000000;
                verified := false |} /\
    updateVerification 10 alice 42 1000 90 50 true s1 = Ok (tt, s2) /\
    findClaim s2 alice 42
      = Some {| orderId := 42; amount := 12; timestamp := 1700000000;
                verified := true |} /\
    (0 <= 50 -> 0 <= 50 -> 12 <= 50 * 50 ^ 2 / 10000).
Proof.
  apply (verification_rescales_stored_amount 10 alice 42 1000 90 50 false
           1000 90 true (submitted 100 1000 90 50)
           {| orderId := 42; amount := 50; timestamp := 1700000000;
              verified := false |}); closed.
Defined.

(** C10, the claim as stated fails: a stored amount of 2 verified twice at
    rate 99 ends at 0, because [2 * 99 / 100] is truncated to 1 before the
    second rescaling, while [2 * 99^2 / 10000] is 1. *)
Lemma compounding_truncates_counterexample :
  findClaim (submitted 100 200 81 100) alice 42
    = Some {| orderId := 42; amount := 2; timestamp := 1700000000;
              verified := false |} /\
  findClaim
    (step (updateVerification 10 alice 42 200 81 99 true)
       (step (updateVerification 10 alice 42 200 81 99 true)
          (submitted 100 200 81 100))) alice 42
    = Some {| orderId := 42; amount := 0; timestamp := 1700000000;
              verified := true |} /\
  succeeded (updateVerification 10 alice 42 200 81 99 true
               (step (updateVerification 10 alice 42 200 81 99 true)
                  (submitted 100 200 81 100))) = true /\
  2 * 99 ^ 2 / 10000 = 1.
Proof.
  repeat split; closed.
Qed.

(** * The first revision

    The owner-operated revision computes the same amounts and has the same
    guards in the same order, without the pause switch; its
    [executePayout] pays the amount its caller names. *)


Ltac unfold_first_revision :=
  unfold V1.submitClaim, V1.updateVerification, V1.executePayout, V1.addFunds,
    V1.onlyOwner, V1.whitelistedOnly, V1.noReentrant, bind, gets, modify,
    require, checked_add, checked_sub, checked_mul, ret, fail in *.

(** The estimated payout of the first revision is the same truncated
    quotient, appended as the last record of the caller. *)
Lemma first_revision_estimatedPayout sender now oid p l r s :
  V1.whitelistedUsers s sender = true ->
  V1.blacklistedUsers s sender = false ->
  0 < p ->
  V1.liquidationThreshold s < l ->
  0 < r <= 100 ->
  V1.claimedOrders s sender oid = false ->
  V1.locked s = false ->
  p * r * (l - V1.liquidationThreshold s) <= MAX_UINT256 ->
  exists s',
    V1.submitClaim sender now oid p l r s = Ok (tt, s') /\
    last (V1.userPayouts s' sender)
      = Some {| V1.orderId := oid;
                V1.amount := p * r * (l - V1.liquidationThreshold s) / 10000;
                V1.timestamp := now;
                V1.verified := false |}.
Proof.
  intros Hw Hb Hp Hl [Hr0 Hr1] Hc Hlk Hfit.
  assert (Hp' : (0 <? p) = true) by (apply Z.ltb_lt; lia).
  assert (Hl' : (V1.liquidationThreshold s <? l) = true) by (apply Z.ltb_lt; lia).
  assert (Hr0' : (0 <? r) = true) by (apply Z.ltb_lt; lia).
  assert (Hr1' : (r <=? 100) = true) by (apply Z.leb_le; lia).
  assert (F1 : (p * r <=? MAX_UINT256) = true) by (apply Z.leb_le; nia).
  assert (F2 : (V1.liquidationThreshold s <=? l) = true) by (apply Z.leb_le; lia).
  assert (F3 : (p * r * (l - V1.liquidationThreshold s) <=? MAX_UINT256) = true)
    by (apply Z.leb_le; lia).
  unfold_first_revision. cbn.
  repeat (first [ rewrite Hw | rewrite Hb | rewrite Hlk | rewrite Hc
                | rewrite Hp' | rewrite Hl' | rewrite Hr0' | rewrite Hr1'
                | rewrite F1 | rewrite F2 | rewrite F3 ]; cbn).
  eexists. split; [reflexivity|].
  cbn. rewrite fn_lookup_insert. apply last_snoc.
Qed.

(** The worked example on the first revision, the owner naming the
    verified amount 25 as the amount to pay: estimate 50, verified amount
    25, ledger 100 -> 76; and a second settlement of the same order goes
    through as well, 76 -> 52. *)
Lemma first_revision_worked_example :
  V1.userPayouts (storage_after (V1.initial_storage 1)
     (V1.submitClaim 7 1700000000 42 1000 90 50
        (V1.set_whitelistedUsers (fun a => a =? 7) (V1.initial_storage 1)))) 7
    = [{| V1.orderId := 42; V1.amount := 50; V1.timestamp := 1700000000;
          V1.verified := false |}] /\
  V1.userPayouts V1.approved 7
    = [{| V1.orderId := 42; V1.amount := 25; V1.timestamp := 1700000000;
          V1.verified := true |}] /\
  exists s1 s2,
    V1.executePayout (fun _ _ s => (true, s)) 1 7 42 25 V1.approved = Ok (tt, s1) /\
    V1.contractBalance s1 = 76 /\
    V1.executePayout (fun _ _ s => (true, s)) 1 7 42 25 s1 = Ok (tt, s2) /\
    V1.contractBalance s2 = 52.
Proof.
  split; [closed|]. split; [closed|].
  eexists. eexists.
  split; [vm_compute; reflexivity|].
  split; [reflexivity|].
  split; [vm_compute; reflexivity|].
  reflexivity.
Qed.

(** Guards of the first revision on the same examples: a resubmission is a
    duplicate, an unverified order is not paid, the balance test is on the
    gross amount, and a nested settlement is turned away by the lock when
    the owner makes it and by [onlyOwner] otherwise. *)
Lemma first_revision_guards :
  V1.submitClaim 7 1700000001 42 1000 90 50 V1.approved = Err DuplicateClaimError /\
  V1.executePayout (fun _ _ s => (true, s)) 1 7 42 25
    (storage_after V1.approved
       (V1.updateVerification 1 7 42 1000 90 100 false V1.approved))
    = Err NotVerifiedError /\
  V1.executePayout (fun _ _ s => (true, s)) 1 7 42 25
    (V1.set_contractBalance 24 V1.approved) = Err InsufficientBalanceError /\
  V1.executePayout (fun _ _ s => (true, s)) 1 7 42 25
    (V1.set_locked true V1.approved) = Err ReentrancyError /\
  V1.executePayout (fun _ _ s => (true, s)) 7 7 42 25
    (V1.set_locked true V1.approved) = Err (Revert "Not owner").
Proof.
  repeat split; closed.
Qed.
(** * Reachable storage *)

Import Runs.

Ltac unfold_governance :=
  unfold dispatch, pause, unpause, addToWhitelist, removeFromWhitelist,
    addToBlacklist, removeFromBlacklist, updateThreshold, updateFee,
    transferOwnership, updateMultiSigWallets, updateMinSignatures in *;
  unfold_contract.

(** Case split on the next atomic test a hypothesis branches on. *)
Ltac split_hyp H :=
  match type of H with
  | context [if ?b then _ else _] =>
      lazymatch b with
      | context [if _ then _ else _] => fail
      | context [match _ with _ => _ end] => fail
      | _ => destruct b eqn:?; cbn in H; try discriminate H
      end
  end.

Lemma in_uint256_range x : in_uint256 x = true -> 0 <= x <= MAX_UINT256.
Proof. unfold in_uint256. intros H. apply andb_prop in H as [H1 H2]. lia. Qed.

Lemma registry_ok_registered sender now oid est s :
  registry_ok s ->
  claimedOrders s sender oid = false ->
  0 <= est <= MAX_UINT256 ->
  registry_ok (claim_registered sender now oid est s).
Proof.
  intros Hreg Hfresh Hest u. unfold claim_registered. cbn.
  destruct (decide (sender = u)) as [->|Hne].
  - rewrite !fn_lookup_insert. cbn. destruct (Hreg u) as [H1 H2]. split.
    + intros o Ho. destruct (decide (oid = o)) as [->|Hno].
      * rewrite fn_lookup_insert, Nat2Z.id, list_lookup_middle by reflexivity.
        eexists. repeat split. lia.
      * rewrite (fn_lookup_insert_ne _ oid o) in Ho by assumption.
        rewrite (fn_lookup_insert_ne _ oid o) by assumption.
        destruct (H1 o Ho) as (r & Hl & Hr & Hi).
        exists r. repeat split; try assumption.
        rewrite lookup_app_l; [assumption|]. now apply lookup_lt_Some in Hl.
    + intros i r Hl. apply lookup_app_Some in Hl as [Hl|[Hlen Hl]].
      * destruct (H2 i r Hl) as (Hc & Hi & Ha).
        assert (oid <> orderId r) by congruence.
        rewrite !(fn_lookup_insert_ne _ oid (orderId r)) by assumption. auto.
      * destruct (i - length (records (userPayouts s u)))%nat as [|k] eqn:Ek;
          [|destruct k; discriminate Hl].
        injection Hl as <-. cbn. rewrite !fn_lookup_insert.
        repeat split; lia.
  - rewrite !fn_lookup_insert_ne by assumption. apply Hreg.
Qed.

Lemma registry_ok_update user index f s :
  (forall r, orderId (f r) = orderId r) ->
  (forall r, 0 <= amount r <= MAX_UINT256 -> 0 <= amount (f r) <= MAX_UINT256) ->
  registry_ok s ->
  registry_ok (update_record user index f s).
Proof.
  intros Hid Hamt Hreg u. unfold update_record. cbn.
  destruct (decide (user = u)) as [->|Hne].
  - rewrite !fn_lookup_insert. cbn. destruct (Hreg u) as [H1 H2]. split.
    + intros o Ho. destruct (H1 o Ho) as (r & Hl & Hr & Hi).
      rewrite list_lookup_alter.
      destruct (decide _) as [e|_]; [rewrite e|]; rewrite Hl; cbn;
        eexists; (split; [reflexivity|]); rewrite ?Hid; auto.
    + intros i r Hl. rewrite list_lookup_alter in Hl.
      destruct (decide _) as [e|_].
      * rewrite e in Hl.
        destruct (records (userPayouts s u) !! i) as [r0|] eqn:E;
          [|discriminate Hl].
        injection Hl as <-. rewrite Hid.
        destruct (H2 i r0 E) as (Hc & Hi & Ha). auto.
      * apply (H2 i r Hl).
  - rewrite !fn_lookup_insert_ne by assumption. apply Hreg.
Qed.

Lemma registry_ok_verified user index pa v s :
  0 <= pa <= MAX_UINT256 ->
  registry_ok s ->
  registry_ok (claim_verified user index pa v s).
Proof.
  intros Hpa Hreg. unfold claim_verified.
  apply registry_ok_update; [reflexivity | intros; exact Hpa |].
  apply registry_ok_update; [reflexivity | auto | assumption].
Qed.

Lemma withdraw_Ok cv sender a s s' :
  withdraw cv sender a s = Ok (tt, s') ->
  exists s1,
    isMultiSigLoop sender (multiSigWallets s) = true /\
    locked s = false /\
    a <= contractBalance s /\
    cv (owner s) a (in_flight s a) = (true, s1) /\
    s' = set_locked false s1.
Proof.
  unfold_contract. unfold in_flight. cbn. intros H.
  destruct (isMultiSigLoop _ _); cbn in H; [|discriminate].
  destruct (locked s); cbn in H; [discriminate|].
  destruct (a <=? contractBalance s) eqn:E; cbn in H; [|discriminate].
  destruct (cv _ _ _) as [[|] s1]; cbn in H; [|discriminate].
  injection H as <-. apply Z.leb_le in E. eauto 10.
Qed.

Lemma sound_in_flight s v :
  sound s -> 0 <= v <= contractBalance s -> sound (in_flight s v).
Proof.
  intros [] Hv. constructor; cbn; try assumption. lia.
Qed.

Lemma sound_set_locked b s : sound s -> sound (set_locked b s).
Proof. intros []. constructor; assumption. Qed.

Lemma passive_callee_sound b : callee_sound (passive b).
Proof. intros to value s Hs Hlk. cbn. auto. Qed.

(** Every entry point keeps sound storage sound and hands the lock back
    as it found it, provided the callee it may hand control to does. *)
Lemma dispatch_sound cv m s :
  callee_sound cv ->
  wf_call (msg_call m) = true ->
  sound s ->
  sound (storage_after s (dispatch cv m s)) /\
  locked (storage_after s (dispatch cv m s)) = locked s.
Proof.
  intros Hcv Hwf Hs.
  destruct (dispatch cv m s) as [[[] s']|e] eqn:E; cbn; [|auto].
  unfold dispatch in E.
  destruct (msg_call m) eqn:Ec; cbn in Hwf.
  - (* submitClaim *)
    rewrite submitClaim_flat in E.
    repeat split_hyp E.
    injection E as <-.
    repeat match goal with
           | H : negb _ = false |- _ => apply negb_false_iff in H
           | H : (_ && _) = true |- _ => apply andb_prop in H as [? ?]
           | H : (_ <? _) = true |- _ => apply Z.ltb_lt in H
           | H : (_ <=? _) = true |- _ => apply Z.leb_le in H
           end.
    destruct Hs. split; [|cbn; congruence].
    constructor; cbn; try assumption.
    apply registry_ok_registered; [assumption|assumption|].
    split; [apply Z.div_pos; nia|].
    apply Z.div_le_upper_bound; nia.
  - (* updateVerification *)
    rewrite updateVerification_flat in E. cbn zeta in E.
    repeat split_hyp E.
    destruct (records _ !! _) as [rec|] eqn:El; [|discriminate E].
    repeat split_hyp E.
    injection E as <-.
    repeat match goal with
           | H : negb _ = false |- _ => apply negb_false_iff in H
           | H : (_ && _) = true |- _ => apply andb_prop in H as [? ?]
           | H : (_ <=? _) = true |- _ => apply Z.leb_le in H
           | H : in_uint256 _ = true |- _ => apply in_uint256_range in H
           end.
    destruct Hs as [? ? ? ? Hreg]. split; [|reflexivity].
    destruct (proj2 (Hreg _user) _ _ El) as (_ & _ & Ha).
    constructor; cbn; try assumption.
    apply registry_ok_verified; [|assumption].
    split; [apply Z.div_pos; nia|].
    apply Z.div_le_upper_bound; nia.
  - (* executePayout *)
    apply executePayout_Ok in E
      as (rec & s1 & _ & Hlk & _ & _ & _ & _ & _ & _ & _ & Hnet & Hcall & ->).
    destruct (Hcv _user (transferAmountOf s (amount rec))
                (in_flight s (transferAmountOf s (amount rec)))) as [H1 H2];
      [now apply sound_in_flight | reflexivity |].
    rewrite Hcall in H1. cbn in H1.
    split; [now apply sound_set_locked | cbn; congruence].
  - (* withdraw *)
    apply in_uint256_range in Hwf.
    apply withdraw_Ok in E as (s1 & _ & Hlk & Ha & Hcall & ->).
    destruct (Hcv (owner s) _amount (in_flight s _amount)) as [H1 H2];
      [apply sound_in_flight; [assumption|lia] | reflexivity |].
    rewrite Hcall in H1. cbn in H1.
    split; [now apply sound_set_locked | cbn; congruence].
  - (* addFunds *)
    apply in_uint256_range in Hwf.
    unfold_governance. cbn in E. repeat split_hyp E. injection E as <-.
    apply Z.leb_le in Heqb0.
    destruct Hs. split; [|reflexivity]. constructor; cbn; try assumption. lia.
  - (* receive *)
    apply in_uint256_range in Hwf.
    unfold_governance. cbn in E. repeat split_hyp E. injection E as <-.
    apply Z.leb_le in Heqb0.
    destruct Hs. split; [|reflexivity]. constructor; cbn; try assumption. lia.
  - unfold_governance. cbn in E. repeat split_hyp E. injection E as <-.
    destruct Hs. split; [|reflexivity]. constructor; assumption.
  - unfold_governance. cbn in E. repeat split_hyp E. injection E as <-.
    destruct Hs. split; [|reflexivity]. constructor; assumption.
  - unfold_governance. cbn in E. repeat split_hyp E. injection E as <-.
    destruct Hs. split; [|reflexivity]. constructor; assumption.
  - unfold_governance. cbn in E. repeat split_hyp E. injection E as <-.
    destruct Hs. split; [|reflexivity]. constructor; assumption.
  - unfold_governance. cbn in E. repeat split_hyp E. injection E as <-.
    destruct Hs. split; [|reflexivity]. constructor; assumption.
  - unfold_governance. cbn in E. repeat split_hyp E. injection E as <-.
    destruct Hs. split; [|reflexivity]. constructor; assumption.
  - (* updateThreshold *)
    unfold_governance. cbn in E. repeat split_hyp E. injection E as <-.
    apply andb_prop in Heqb0 as [H1 H2].
    apply Z.ltb_lt in H1, H2.
    destruct Hs. split; [|reflexivity]. constructor; cbn; try assumption. lia.
  - (* updateFee *)
    apply in_uint256_range in Hwf.
    unfold_governance. cbn in E. repeat split_hyp E. injection E as <-.
    apply Z.leb_le in Heqb0.
    destruct Hs. split; [|reflexivity]. constructor; cbn; try assumption. lia.
  - unfold_governance. cbn in E. repeat split_hyp E. injection E as <-.
    destruct Hs. split; [|reflexivity]. constructor; assumption.
  - (* updateMultiSigWallets *)
    unfold_governance. cbn in E. repeat split_hyp E. injection E as <-.
    apply Z.leb_le in Heqb0.
    destruct Hs. split; [|reflexivity]. constructor; cbn; try assumption. lia.
  - (* updateMinSignatures *)
    unfold_governance. cbn in E. repeat split_hyp E. injection E as <-.
    apply andb_prop in Heqb0 as [H1 H2].
    apply Z.ltb_lt in H1. apply Z.leb_le in H2.
    destruct Hs. split; [|reflexivity]. constructor; cbn; try assumption. lia.
Qed.

Lemma run_callbacks_sound ms : forall s,
  forallb (fun m => wf_call (msg_call m)) ms = true ->
  sound s -> locked s = true ->
  sound (run_callbacks ms s) /\ locked (run_callbacks ms s) = true.
Proof.
  unfold run_callbacks.
  induction ms as [|m ms IH]; intros s Hwf Hs Hlk; cbn; [auto|].
  cbn in Hwf. apply andb_prop in Hwf as [Hm Hms].
  destruct (dispatch_sound (passive true) m s (passive_callee_sound true) Hm Hs)
    as [Hs' Hlk'].
  apply IH; [assumption|assumption|congruence].
Qed.

Lemma recipient_callee_sound r :
  forallb (fun m => wf_call (msg_call m)) (callbacks r) = true ->
  callee_sound (recipient_call r).
Proof.
  intros Hwf to value s Hs Hlk. cbn. now apply run_callbacks_sound.
Qed.

Lemma execute_sound t s :
  wf_tx t = true -> sound s -> locked s = false ->
  sound (execute t s) /\ locked (execute t s) = false.
Proof.
  unfold wf_tx, execute. intros Hwf Hs Hlk.
  destruct t as [m r|sender chainBalance|sender u ratio].
  - apply andb_prop in Hwf as [Hm Hr].
    destruct (dispatch_sound (recipient_call r) m s
                (recipient_callee_sound _ Hr) Hm Hs) as [Hs' Hlk'].
    split; [assumption|congruence].
  - apply in_uint256_range in Hwf.
    unfold syncBalance, onlyOwner, bind, gets, require, modify, ret, fail.
    destruct (sender =? owner s); cbn; [|auto].
    split; [|assumption]. destruct Hs. constructor; assumption.
  - unfold markLiquidation, onlyOwner, bind, gets, require, modify, ret, fail.
    destruct (sender =? owner s); cbn; [|auto].
    destruct (negb (blacklistedUsers s u)); cbn; [|auto].
    destruct (liquidationThreshold s <? ratio); cbn; auto.
Qed.

Lemma run_sound ts : forall s,
  forallb wf_tx ts = true -> sound s -> locked s = false ->
  sound (run ts s) /\ locked (run ts s) = false.
Proof.
  unfold run.
  induction ts as [|t ts IH]; intros s Hwf Hs Hlk; cbn; [auto|].
  cbn in Hwf. apply andb_prop in Hwf as [Ht Hts].
  destruct (execute_sound t s Ht Hs Hlk) as [Hs' Hlk'].
  now apply IH.
Qed.

Lemma initial_storage_sound d ws :
  3 <= Z.of_nat (length ws) -> sound (initial_storage d ws).
Proof.
  intros H. constructor; cbn; try lia.
  - split; [lia | discriminate].
  - intros u. cbn. split; [discriminate|].
    intros i r Hl. now rewrite lookup_nil in Hl.
Qed.

Lemma deployed_sound d ws ts s0 :
  constructor d ws = Ok s0 ->
  forallb wf_tx ts = true ->
  sound (run ts s0) /\ locked (run ts s0) = false.
Proof.
  unfold constructor. intros Hc Hwf.
  destruct (3 <=? Z.of_nat (length ws)) eqn:E; [|discriminate].
  injection Hc as <-. apply Z.leb_le in E.
  apply run_sound; [assumption | now apply initial_storage_sound | reflexivity].
Qed.

(** ** What holds in every reachable storage *)

(** X1.  From deployment on, whatever transactions run, the liquidation
    threshold stays strictly between 0 and 100 and the fee percentage
    between 0 and 5. *)
Theorem parameters_stay_bounded d ws ts s0 :
  constructor d ws = Ok s0 ->
  forallb wf_tx ts = true ->
  0 < liquidationThreshold (run ts s0) < 100 /\
  0 <= feePercentage (run ts s0) <= 5.
Proof.
  intros Hc Hwf. destruct (deployed_sound d ws ts s0 Hc Hwf) as [[] _]. auto.
Qed.

Lemma parameters_stay_bounded_witness :
  0 < liquidationThreshold
        (run (history ++ [plain 11 1700000200 (CallUpdateThreshold 60);
                          plain 11 1700000300 (CallUpdateFee 9);
                          plain 12 1700000400 (CallUpdateFee 3)]) genesis) < 100 /\
  0 <= feePercentage
         (run (history ++ [plain 11 1700000200 (CallUpdateThreshold 60);
                           plain 11 1700000300 (CallUpdateFee 9);
                           plain 12 1700000400 (CallUpdateFee 3)]) genesis) <= 5.
Proof.
  apply (parameters_stay_bounded deployer validators _ genesis); closed.
Defined.

(** X2.  Between transactions the reentrancy flag is free: every reachable
    storage has [locked = false], whatever the recipients of payouts and
    withdrawals attempted while they held control. *)
Theorem lock_free_between_transactions d ws ts s0 :
  constructor d ws = Ok s0 ->
  forallb wf_tx ts = true ->
  locked (run ts s0) = false.
Proof.
  intros Hc Hwf. now destruct (deployed_sound d ws ts s0 Hc Hwf).
Qed.

Lemma lock_free_between_transactions_witness :
  locked (run (history ++
                 [ Invoke {| msg_sender := 10; block_timestamp := 1700000200;
                             msg_call := CallExecutePayout alice 42 |}
                          {| accepts := true;
                             callbacks := [ {| msg_sender := alice;
                                               block_timestamp := 1700000200;
                                               msg_call := CallSubmitClaim 43 500 95 10 |};
                                            {| msg_sender := 10;
                                               block_timestamp := 1700000200;
                                               msg_call := CallWithdraw 5 |} ] |} ])
            genesis) = false.
Proof.
  apply (lock_free_between_transactions deployer validators _ genesis); closed.
Defined.

(** X3.  The validator roster never runs empty: in every reachable storage
    [0 < minSignatures <= multiSigWallets.length], so index 0 of the roster
    holds a wallet and that wallet passes [onlyMultiSig]. *)
Theorem roster_never_empty d ws ts s0 :
  constructor d ws = Ok s0 ->
  forallb wf_tx ts = true ->
  0 < minSignatures (run ts s0) <= getMultiSigWalletCount (run ts s0) /\
  exists w,
    getMultiSigWallet 0 (run ts s0) = Ok w /\
    isMultiSigLoop w (multiSigWallets (run ts s0)) = true.
Proof.
  intros Hc Hwf. destruct (deployed_sound d ws ts s0 Hc Hwf) as [[_ _ _ Hq _] _].
  split; [exact Hq|].
  unfold getMultiSigWallet.
  destruct (multiSigWallets (run ts s0)) as [|w rest]; cbn in *; [lia|].
  exists w. split; [reflexivity|]. now rewrite Z.eqb_refl.
Qed.

Lemma roster_never_empty_witness :
  getMultiSigWallet 0
    (run (history ++ [plain deployer 1700000200 (CallUpdateMinSignatures 1);
                      plain deployer 1700000300 (CallUpdateMultiSigWallets []);
                      plain deployer 1700000400 (CallUpdateMultiSigWallets [20])])
         genesis) = Ok 20.
Proof.
  destruct (roster_never_empty deployer validators
              (history ++ [plain deployer 1700000200 (CallUpdateMinSignatures 1);
                           plain deployer 1700000300 (CallUpdateMultiSigWallets []);
                           plain deployer 1700000400 (CallUpdateMultiSigWallets [20])])
              genesis) as (_ & w & Hw & _); [closed | closed |].
  rewrite Hw. f_equal.
  apply (f_equal (fun r => match r with Ok a => a | Err _ => 0 end)) in Hw.
  vm_compute in Hw. congruence.
Defined.

Lemma registry_ok_findClaim s u o :
  registry_ok s ->
  claimedOrders s u o = true ->
  exists r, findClaim s u o = Some r /\ r ∈ records (userPayouts s u).
Proof.
  intros Hreg Hc. destruct (proj1 (Hreg u) o Hc) as (r & Hl & Ho & Hi).
  exists r. split; [|eapply list_elem_of_lookup_2; exact Hl].
  unfold findClaim. rewrite Hc. cbn zeta.
  pose proof (lookup_lt_Some _ _ _ Hl) as Hlt.
  rewrite (proj2 (Z.ltb_lt _ _)) by lia.
  rewrite Hl, Ho, Z.eqb_refl. reflexivity.
Qed.

(** X4.  In every reachable storage the claimed flag and the record array
    agree: an order is claimed exactly when its record is found by the
    index lookup, and every record that [getUserPayouts] returns is the
    record found for its own order id.  So for a claimed order the tests
    "Order record not found" and "Order ID mismatch" never fire. *)
Theorem registry_consistent d ws ts s0 u o :
  constructor d ws = Ok s0 ->
  forallb wf_tx ts = true ->
  (isOrderClaimed u o (run ts s0) = true
     <-> exists r, findClaim (run ts s0) u o = Some r) /\
  (forall r, r ∈ getUserPayouts u (run ts s0) ->
     findClaim (run ts s0) u (orderId r) = Some r).
Proof.
  intros Hc Hwf. destruct (deployed_sound d ws ts s0 Hc Hwf) as [[_ _ _ _ Hreg] _].
  split; [split|].
  - intros H. destruct (registry_ok_findClaim _ u o Hreg H) as (r & Hr & _). eauto.
  - intros [r Hr]. now apply findClaim_inv in Hr as (? & _).
  - intros r Hr. rewrite getUserPayouts_records in Hr.
    apply list_elem_of_lookup_1 in Hr as [i Hi].
    destruct (proj2 (Hreg u) i r Hi) as (Hcl & Hidx & _).
    unfold findClaim. rewrite Hcl. cbn zeta. rewrite Hidx, Nat2Z.id.
    pose proof (lookup_lt_Some _ _ _ Hi) as Hlt.
    rewrite (proj2 (Z.ltb_lt _ _)) by lia.
    now rewrite Hi, Z.eqb_refl.
Qed.

Lemma registry_consistent_witness :
  (isOrderClaimed alice 42 (run history genesis) = true
     <-> exists r, findClaim (run history genesis) alice 42 = Some r) /\
  (forall r, r ∈ getUserPayouts alice (run history genesis) ->
     findClaim (run history genesis) alice (orderId r) = Some r).
Proof.
  apply (registry_consistent deployer validators history genesis alice 42); closed.
Defined.

(** X5.  In every reachable storage the records of a user carry pairwise
    different order ids. *)
Theorem order_ids_unique d ws ts s0 u :
  constructor d ws = Ok s0 ->
  forallb wf_tx ts = true ->
  NoDup (orderId <$> getUserPayouts u (run ts s0)).
Proof.
  intros Hc Hwf. destruct (deployed_sound d ws ts s0 Hc Hwf) as [[_ _ _ _ Hreg] _].
  rewrite getUserPayouts_records. apply NoDup_alt.
  intros i j o Hi Hj. rewrite list_lookup_fmap in Hi, Hj.
  destruct (records _ !! i) as [ri|] eqn:Ei; [|discriminate].
  destruct (records _ !! j) as [rj|] eqn:Ej; [|discriminate].
  cbn in Hi, Hj. injection Hi as Hi. injection Hj as Hj.
  destruct (proj2 (Hreg u) i ri Ei) as (_ & Hxi & _).
  destruct (proj2 (Hreg u) j rj Ej) as (_ & Hxj & _).
  rewrite Hi in Hxi. rewrite Hj in Hxj. lia.
Qed.

Lemma order_ids_unique_witness :
  NoDup (orderId <$> getUserPayouts alice
           (run (history ++ [plain alice 1700000200 (CallSubmitClaim 43 500 95 10);
                             SyncBalance deployer 500;
                             MarkLiquidation deployer alice 95;
                             plain alice 1700000300 (CallSubmitClaim 42 700 99 20)])
                genesis)).
Proof.
  apply (order_ids_unique deployer validators _ genesis alice); closed.
Defined.

(** X6.  In every reachable storage a settlement that goes through hands
    the claimant at least 95 percent and at most the whole of the stored
    amount of the claim. *)
Theorem payout_at_least_95_percent d ws ts s0 cv validator u o s' :
  constructor d ws = Ok s0 ->
  forallb wf_tx ts = true ->
  executePayout cv validator u o (run ts s0) = Ok (tt, s') ->
  exists rec s1,
    findClaim (run ts s0) u o = Some rec /\
    cv u (transferAmountOf (run ts s0) (amount rec))
       (in_flight (run ts s0) (transferAmountOf (run ts s0) (amount rec)))
      = (true, s1) /\
    95 * amount rec <= 100 * transferAmountOf (run ts s0) (amount rec)
      <= 100 * amount rec.
Proof.
  intros Hc Hwf H. destruct (deployed_sound d ws ts s0 Hc Hwf) as [[_ Hfee _ _ _] _].
  apply executePayout_Ok in H
    as (rec & s1 & _ & _ & _ & _ & _ & Hf & _ & Hpos & _ & _ & Hcall & _).
  exists rec, s1. split; [exact Hf|]. split; [exact Hcall|].
  unfold transferAmountOf, feeOf.
  assert (0 <= amount rec * feePercentage (run ts s0) / 100).
  { apply Z.div_pos; nia. }
  assert (100 * (amount rec * feePercentage (run ts s0) / 100)
          <= amount rec * feePercentage (run ts s0)).
  { apply Z.mul_div_le. lia. }
  nia.
Qed.

Lemma payout_at_least_95_percent_witness :
  exists rec s1,
    findClaim (run history genesis) alice 42 = Some rec /\
    passive true alice (transferAmountOf (run history genesis) (amount rec))
       (in_flight (run history genesis)
          (transferAmountOf (run history genesis) (amount rec)))
      = (true, s1) /\
    95 * amount rec <= 100 * transferAmountOf (run history genesis) (amount rec)
      <= 100 * amount rec.
Proof.
  destruct (executePayout (passive true) 10 alice 42 (run history genesis))
    as [[[] s']|e] eqn:E; [|vm_compute in E; discriminate E].
  apply (payout_at_least_95_percent deployer validators history genesis
           (passive true) 10 alice 42 s'); [closed | closed | exact E].
Defined.

(** ** Validators *)

Lemma isMultiSigLoop_elem_of a ws : isMultiSigLoop a ws = true <-> a ∈ ws.
Proof.
  induction ws as [|w ws IH]; cbn.
  - split; [discriminate | intros H; inversion H].
  - destruct (a =? w) eqn:E.
    + apply Z.eqb_eq in E as ->. split; [intros _; left | reflexivity].
    + apply Z.eqb_neq in E. rewrite IH. split; [now right|].
      intros H. apply elem_of_cons in H as [->|H]; [contradiction|assumption].
Qed.

(** X7.  [onlyMultiSig] lets the body run exactly for the callers listed
    in [multiSigWallets]: a listed caller gets the outcome of the body, any
    other caller the revert "Not multi-sig wallet". *)
Theorem onlyMultiSig_membership sender body s :
  (sender ∈ multiSigWallets s -> onlyMultiSig sender body s = body s) /\
  (sender ∉ multiSigWallets s ->
     onlyMultiSig sender body s = Err (Revert "Not multi-sig wallet")).
Proof.
  unfold onlyMultiSig, bind, gets, require, ret, fail. split; intros H.
  - apply isMultiSigLoop_elem_of in H. rewrite H. now destruct (body s) as [[[] ?]|].
  - destruct (isMultiSigLoop sender (multiSigWallets s)) eqn:E; [|reflexivity].
    apply isMultiSigLoop_elem_of in E. contradiction.
Qed.

Lemma onlyMultiSig_membership_witness :
  onlyMultiSig 12 (modify (set_feePercentage 2)) genesis
    = modify (set_feePercentage 2) genesis /\
  onlyMultiSig deployer (modify (set_feePercentage 2)) genesis
    = Err (Revert "Not multi-sig wallet").
Proof.
  destruct (onlyMultiSig_membership 12 (modify (set_feePercentage 2)) genesis)
    as [H _].
  destruct (onlyMultiSig_membership deployer (modify (set_feePercentage 2)) genesis)
    as [_ H'].
  split; [apply H | apply H'].
  - cbn. repeat constructor.
  - cbn. intros Hin.
    repeat (apply elem_of_cons in Hin as [Hin|Hin]; [discriminate Hin|]).
    inversion Hin.
Defined.

(** X8.  [getMultiSigWallet] enumerates the validators: a wallet passes
    [onlyMultiSig] exactly when some index below [getMultiSigWalletCount]
    returns it, and an index at or beyond the count reverts with "Index out
    of bounds". *)
Theorem roster_enumeration s w :
  (isMultiSigLoop w (multiSigWallets s) = true
     <-> exists i, 0 <= i < getMultiSigWalletCount s /\
                   getMultiSigWallet i s = Ok w) /\
  (forall i, getMultiSigWalletCount s <= i ->
     getMultiSigWallet i s = Err (Revert "Index out of bounds")).
Proof.
  unfold getMultiSigWallet, getMultiSigWalletCount. split; [split|].
  - intros H. apply isMultiSigLoop_elem_of, list_elem_of_lookup_1 in H as [n Hn].
    pose proof (lookup_lt_Some _ _ _ Hn).
    exists (Z.of_nat n). split; [lia|].
    rewrite (proj2 (Z.ltb_lt _ _)) by lia.
    now rewrite Nat2Z.id, Hn.
  - intros (i & Hi & H). apply isMultiSigLoop_elem_of.
    destruct (i <? _); [|discriminate].
    destruct (multiSigWallets s !! Z.to_nat i) as [a|] eqn:E; [|discriminate].
    injection H as ->. eapply list_elem_of_lookup_2. exact E.
  - intros i Hi. now rewrite (proj2 (Z.ltb_ge _ _)) by lia.
Qed.

(** ** Frame of submission and verification *)

Lemma submitClaim_Ok sender now oid p l r s s' :
  submitClaim sender now oid p l r s = Ok (tt, s') ->
  claimedOrders s sender oid = false /\
  s' = claim_registered sender now oid
         (p * r * (l - liquidationThreshold s) / 10000) s.
Proof.
  rewrite submitClaim_flat. intros H.
  repeat split_hyp H. now injection H as <-.
Qed.

Lemma findClaim_registered_other sender now oid est s u o :
  (u, o) <> (sender, oid) ->
  findClaim (claim_registered sender now oid est s) u o = findClaim s u o.
Proof.
  intros Hne. unfold findClaim, claim_registered. cbn.
  destruct (decide (sender = u)) as [->|Hu].
  - assert (Ho : oid <> o) by congruence.
    rewrite !fn_lookup_insert. cbn.
    rewrite !(fn_lookup_insert_ne _ oid o) by assumption.
    destruct (claimedOrders s u o); [|reflexivity].
    set (rs := records (userPayouts s u)).
    set (idx := orderIdToIndex (userPayouts s u) o).
    rewrite length_app. cbn [length].
    destruct (decide (Z.to_nat idx < length rs)%nat) as [Hlt|Hge].
    + rewrite lookup_app_l by assumption.
      destruct (idx <? Z.of_nat (length rs)) eqn:E1;
        destruct (idx <? Z.of_nat (length rs + 1)) eqn:E2; try reflexivity;
        apply Z.ltb_lt in E1 || apply Z.ltb_ge in E1;
        apply Z.ltb_lt in E2 || apply Z.ltb_ge in E2; lia.
    + rewrite (lookup_ge_None_2 rs) by lia.
      destruct (idx <? Z.of_nat (length rs + 1)); [|now destruct (idx <? _)].
      rewrite lookup_app_r by lia.
      destruct (Z.to_nat idx - length rs)%nat as [|k]; cbn.
      * rewrite (proj2 (Z.eqb_neq oid o)) by assumption.
        now destruct (idx <? _).
      * now destruct (idx <? _).
  - rewrite !(fn_lookup_insert_ne _ sender u) by assumption. reflexivity.
Qed.

(** X9.  A submission that goes through appends exactly one record, the
    unverified estimate, to the caller's array, sets the claimed flag of
    the new order, and changes nothing else: every other order of every
    user is looked up as before, the arrays of the other users and the
    ledger balance are untouched. *)
Theorem submitClaim_appends_one_record sender now oid p l r s s' :
  submitClaim sender now oid p l r s = Ok (tt, s') ->
  getUserPayouts sender s'
    = getUserPayouts sender s ++
        [{| orderId := oid;
            amount := p * r * (l - liquidationThreshold s) / 10000;
            timestamp := now; verified := false |}] /\
  isOrderClaimed sender oid s = false /\
  isOrderClaimed sender oid s' = true /\
  (forall u o, (u, o) <> (sender, oid) ->
     isOrderClaimed u o s' = isOrderClaimed u o s /\
     findClaim s' u o = findClaim s u o) /\
  (forall u, u <> sender -> getUserPayouts u s' = getUserPayouts u s) /\
  contractBalance s' = contractBalance s.
Proof.
  intros H. apply submitClaim_Ok in H as [Hfresh ->].
  rewrite !getUserPayouts_records.
  unfold isOrderClaimed, claim_registered. cbn.
  rewrite !fn_lookup_insert. cbn.
  repeat split; try assumption.
  - destruct (decide (sender = u)) as [->|Hu].
    + assert (oid <> o) by congruence.
      now rewrite fn_lookup_insert, fn_lookup_insert_ne.
    + now rewrite fn_lookup_insert_ne.
  - now apply (findClaim_registered_other sender now oid _ s u o).
  - intros u Hu. rewrite !getUserPayouts_records. cbn.
    now rewrite fn_lookup_insert_ne.
Qed.

Lemma submitClaim_appends_one_record_witness :
  getUserPayouts alice (step (submitClaim alice 1700000100 43 2000 95 100)
                          (approved 100 1000 90 50 50))
    = getUserPayouts alice (approved 100 1000 90 50 50) ++
        [{| orderId := 43; amount := 300; timestamp := 1700000100;
            verified := false |}] /\
  findClaim (step (submitClaim alice 1700000100 43 2000 95 100)
               (approved 100 1000 90 50 50)) alice 42
    = findClaim (approved 100 1000 90 50 50) alice 42.
Proof.
  destruct (submitClaim alice 1700000100 43 2000 95 100 (approved 100 1000 90 50 50))
    as [[[] s']|e] eqn:E; [|vm_compute in E; discriminate E].
  destruct (submitClaim_appends_one_record alice 1700000100 43 2000 95 100 _ s' E)
    as (H1 & _ & _ & H2 & _).
  unfold step. rewrite E. cbn [storage_after].
  split; [exact H1|]. apply H2. congruence.
Defined.

Lemma roster_enumeration_witness :
  (isMultiSigLoop 11 (multiSigWallets genesis) = true
     <-> exists i, 0 <= i < getMultiSigWalletCount genesis /\
                   getMultiSigWallet i genesis = Ok 11) /\
  getMultiSigWallet 3 genesis = Err (Revert "Index out of bounds").
Proof.
  destruct (roster_enumeration genesis 11) as [H1 H2].
  split; [exact H1 | apply H2; closed].
Defined.

Lemma updateVerification_Ok sender user oid p l r v s s' :
  updateVerification sender user oid p l r v s = Ok (tt, s') ->
  exists rec,
    isMultiSigLoop sender (multiSigWallets s) = true /\
    paused s = false /\
    findClaim s user oid = Some rec /\
    amount rec * r <= MAX_UINT256 /\
    s' = claim_verified user (orderIdToIndex (userPayouts s user) oid)
           (amount rec * r / 100) v s.
Proof.
  rewrite updateVerification_flat. unfold findClaim. cbn zeta. intros H.
  repeat split_hyp H.
  destruct (records _ !! _) as [rec|] eqn:El; [|discriminate H].
  repeat split_hyp H. injection H as <-.
  repeat match goal with
         | E : negb _ = false |- _ => apply negb_false_iff in E
         end.
  exists rec.
  repeat match goal with
         | E : _ = true |- _ => rewrite E
         end.
  repeat split; auto. now apply Z.leb_le.
Qed.

Lemma findClaim_verified_other s user oid rec pa v u o :
  findClaim s user oid = Some rec ->
  (u, o) <> (user, oid) ->
  findClaim (claim_verified user (orderIdToIndex (userPayouts s user) oid) pa v s) u o
    = findClaim s u o.
Proof.
  intros Hf Hne. apply findClaim_inv in Hf as (Hc & Hlt & Hl & Ho).
  apply Z.eqb_eq in Ho.
  unfold findClaim, claim_verified, update_record. cbn.
  destruct (decide (user = u)) as [->|Hu].
  - assert (oid <> o) by congruence.
    rewrite !fn_lookup_insert. cbn. rewrite ?fn_lookup_insert. cbn.
    rewrite !length_alter.
    destruct (claimedOrders s u o); [|reflexivity].
    destruct (orderIdToIndex (userPayouts s u) o <? _); [|reflexivity].
    rewrite !list_lookup_alter.
    destruct (decide _) as [e|_]; [|reflexivity].
    rewrite <- e, Hl. cbn.
    destruct (decide _); cbn;
      now rewrite !(proj2 (Z.eqb_neq (orderId rec) o)) by congruence.
  - now rewrite !(fn_lookup_insert_ne _ user u) by assumption.
Qed.

(** X10.  A verification that goes through rewrites the amount and the
    flag of the one record it names and nothing else: every other order of
    every user is looked up as before, no array changes its length, the
    claimed flags and the ledger balance are untouched. *)
Theorem updateVerification_touches_one_record sender user oid p l r v s s' :
  updateVerification sender user oid p l r v s = Ok (tt, s') ->
  (forall u o, (u, o) <> (user, oid) -> findClaim s' u o = findClaim s u o) /\
  (forall u, length (getUserPayouts u s') = length (getUserPayouts u s)) /\
  (forall u o, isOrderClaimed u o s' = isOrderClaimed u o s) /\
  contractBalance s' = contractBalance s.
Proof.
  intros H. apply updateVerification_Ok in H as (rec & _ & _ & Hf & _ & ->).
  repeat split.
  - intros u o Hne. now apply (findClaim_verified_other s user oid rec).
  - intros u. rewrite !getUserPayouts_records.
    unfold claim_verified, update_record. cbn.
    destruct (decide (user = u)) as [->|Hu].
    + rewrite !fn_lookup_insert. cbn. rewrite ?fn_lookup_insert. cbn.
      now rewrite !length_alter.
    + now rewrite !(fn_lookup_insert_ne _ user u) by assumption.
Qed.

Lemma updateVerification_touches_one_record_witness :
  findClaim (step (updateVerification 12 alice 43 2000 95 10 true)
               (step (submitClaim alice 1700000100 43 2000 95 100)
                  (approved 100 1000 90 50 50))) alice 42
    = findClaim (step (submitClaim alice 1700000100 43 2000 95 100)
                   (approved 100 1000 90 50 50)) alice 42.
Proof.
  destruct (updateVerification 12 alice 43 2000 95 10 true
              (step (submitClaim alice 1700000100 43 2000 95 100)
                 (approved 100 1000 90 50 50)))
    as [[[] s']|e] eqn:E; [|vm_compute in E; discriminate E].
  destruct (updateVerification_touches_one_record 12 alice 43 2000 95 10 true _ s' E)
    as (H & _).
  unfold step at 1. rewrite E. cbn [storage_after]. apply H. congruence.
Defined.

(** ** Funds *)

(** X11.  A deposit by the owner followed by a withdrawal of the same
    amount by a validator, the owner taking the transfer, both go through
    and restore the storage exactly; neither is stopped by the pause
    switch. *)
Theorem deposit_then_withdraw_restores validator v s :
  isMultiSigLoop validator (multiSigWallets s) = true ->
  locked s = false ->
  0 <= v ->
  0 <= contractBalance s ->
  contractBalance s + v <= MAX_UINT256 ->
  exists s1,
    addFunds (owner s) v s = Ok (tt, s1) /\
    contractBalance s1 = contractBalance s + v /\
    withdraw (passive true) validator v s1 = Ok (tt, s).
Proof.
  intros Hm Hlk Hv Hb Hfit.
  exists (set_contractBalance (contractBalance s + v) s).
  split; [|split; [reflexivity|]].
  - unfold_contract. cbn. rewrite Z.eqb_refl. cbn.
    now rewrite (proj2 (Z.leb_le _ MAX_UINT256)) by lia.
  - unfold_contract. cbn. rewrite Hm. cbn. rewrite Hlk. cbn.
    rewrite (proj2 (Z.leb_le v _)) by lia. cbn.
    rewrite Z.add_simpl_r. destruct s; cbn in *. now subst.
Qed.

Lemma deposit_then_withdraw_restores_witness :
  exists s1,
    addFunds (owner (step (pause deployer) (funded 100))) 40
      (step (pause deployer) (funded 100)) = Ok (tt, s1) /\
    contractBalance s1 = contractBalance (step (pause deployer) (funded 100)) + 40 /\
    withdraw (passive true) 10 40 s1 = Ok (tt, step (pause deployer) (funded 100)).
Proof.
  apply (deposit_then_withdraw_restores 10 40 (step (pause deployer) (funded 100)));
    closed.
Defined.

(** ** Pause, blacklist, ownership *)

(** X12.  The pause switch stops exactly [submitClaim],
    [updateVerification], [executePayout] and plain deposits through
    [receive]: while paused none of them goes through.  Every other entry
    point ([withdraw], [addFunds], the whitelist, blacklist, parameter,
    roster and ownership updates) takes no notice of the switch: it has the
    same outcome and the same effect whatever [paused] is. *)
Theorem pause_gates_four_entry_points cv accepted m s b :
  (paused s = true -> pause_gated (msg_call m) = true ->
     succeeded (dispatch cv m s) = false) /\
  (pause_gated (msg_call m) = false ->
   msg_call m <> CallPause -> msg_call m <> CallUnpause ->
     dispatch (passive accepted) m (set_paused b s)
       = match dispatch (passive accepted) m s with
         | Ok (_, s') => Ok (tt, set_paused b s')
         | Err e => Err e
         end).
Proof.
  split.
  - intros Hp Hg. unfold dispatch.
    destruct (msg_call m); try discriminate Hg.
    + rewrite submitClaim_flat, Hp. repeat split_head.
    + rewrite updateVerification_flat, Hp. repeat split_head.
    + rewrite executePayout_flat, Hp. repeat split_head.
    + unfold_contract. cbn. now rewrite Hp.
  - intros Hg Hn1 Hn2. unfold dispatch.
    destruct (msg_call m); try discriminate Hg; try congruence;
      unfold_governance; unfold passive; cbn;
      repeat match goal with
             | |- context [if ?c then _ else _] =>
                 lazymatch c with
                 | context [if _ then _ else _] => fail
                 | _ => destruct c; cbn; try reflexivity
                 end
             end.
Qed.

Lemma pause_gates_four_entry_points_witness :
  succeeded (dispatch (passive true)
               {| msg_sender := outsider; block_timestamp := 1700000200;
                  msg_call := CallReceive 5 |}
               (step (pause deployer) (funded 100))) = false /\
  dispatch (passive true)
    {| msg_sender := 10; block_timestamp := 1700000200; msg_call := CallWithdraw 30 |}
    (set_paused true (funded 100))
  = match dispatch (passive true)
            {| msg_sender := 10; block_timestamp := 1700000200;
               msg_call := CallWithdraw 30 |} (funded 100) with
    | Ok (_, s') => Ok (tt, set_paused true s')
    | Err e => Err e
    end.
Proof.
  split.
  - apply (pause_gates_four_entry_points (passive true) true
             {| msg_sender := outsider; block_timestamp := 1700000200;
                msg_call := CallReceive 5 |}
             (step (pause deployer) (funded 100)) true); closed.
  - apply (pause_gates_four_entry_points (passive true) true
             {| msg_sender := 10; block_timestamp := 1700000200;
                msg_call := CallWithdraw 30 |} (funded 100) true);
      [reflexivity | discriminate | discriminate].
Defined.

(** X13.  The owner blacklisting a user shuts that user out whatever the
    whitelist says: the whitelist entry is left as it was, and from then on
    no submission by the user and no settlement in the user's favour goes
    through. *)
Theorem blacklist_overrides_whitelist cv u now oid p l r validator oid' s :
  exists s',
    addToBlacklist (owner s) u s = Ok (tt, s') /\
    whitelistedUsers s' = whitelistedUsers s /\
    succeeded (submitClaim u now oid p l r s') = false /\
    succeeded (executePayout cv validator u oid' s') = false.
Proof.
  exists (set_blacklistedUsers (<[u := true]> (blacklistedUsers s)) s).
  split; [|split; [reflexivity|split]].
  - unfold addToBlacklist, onlyOwner, bind, gets, require, modify, ret.
    now rewrite Z.eqb_refl.
  - rewrite submitClaim_flat. cbn. rewrite fn_lookup_insert.
    now destruct (whitelistedUsers s u).
  - rewrite executePayout_flat. cbn. rewrite fn_lookup_insert.
    repeat split_head.
Qed.

(** X14.  Ownership moves in one step: after [transferOwnership] to a
    non-zero address other than the owner, the old owner is turned away by
    [onlyOwner] and the new owner is let through; the zero address is
    refused as new owner. *)
Theorem ownership_hands_over newOwner s :
  (newOwner <> 0 -> newOwner <> owner s ->
   exists s',
     transferOwnership (owner s) newOwner s = Ok (tt, s') /\
     owner s' = newOwner /\
     pause (owner s) s' = Err (Revert "Not owner") /\
     succeeded (pause newOwner s') = true) /\
  transferOwnership (owner s) 0 s = Err (Revert "Invalid address").
Proof.
  unfold transferOwnership, pause, onlyOwner, bind, gets, require, modify, ret, fail.
  rewrite Z.eqb_refl. split.
  - intros H0 Hne. exists (set_owner newOwner s). cbn.
    rewrite (proj2 (Z.eqb_neq newOwner 0)) by assumption. cbn.
    rewrite Z.eqb_refl, (proj2 (Z.eqb_neq (owner s) newOwner)) by congruence.
    auto.
  - reflexivity.
Qed.

Lemma ownership_hands_over_witness :
  exists s',
    transferOwnership (owner genesis) 20 genesis = Ok (tt, s') /\
    owner s' = 20 /\
    pause (owner genesis) s' = Err (Revert "Not owner") /\
    succeeded (pause 20 s') = true.
Proof.
  apply (ownership_hands_over 20 genesis); closed.
Defined.

(** ** What a caller without a role can change *)

Lemma findClaim_Some_claimed s u o r :
  findClaim s u o = Some r -> claimedOrders s u o = true.
Proof. intros H. now apply findClaim_inv in H. Qed.

(** X15.  A caller that is not a validator cannot touch a claim or a
    parameter, whatever it calls, [syncBalance] and [markLiquidation]
    included and whatever the recipient named in the transaction would do:
    every claim already in the registry keeps its record (amount and
    verified flag included), threshold and fee stay as they are.  Nor can
    it take the ledger down, with one exception: [syncBalance], which is
    the owner's and not the validators', overwrites the ledger with the
    balance the chain holds, lower or not; from anyone but the owner it
    leaves the ledger as it is. *)
Theorem non_validator_cannot_alter_claims t s :
  isMultiSigLoop (tx_sender t) (multiSigWallets s) = false ->
  wf_tx t = true ->
  (forall u o r, findClaim s u o = Some r ->
     findClaim (execute t s) u o = Some r) /\
  liquidationThreshold (execute t s) = liquidationThreshold s /\
  feePercentage (execute t s) = feePercentage s /\
  match t with
  | SyncBalance sender chainBalance =>
      contractBalance (execute t s)
        = if sender =? owner s then chainBalance else contractBalance s
  | _ => contractBalance s <= contractBalance (execute t s)
  end.
Proof.
  intros Hm Hwf.
  destruct t as [m rcp|sender chainBalance|sender u ratio]; cbn in Hm.
  2: { unfold execute, syncBalance, onlyOwner, require, bind, gets, modify, ret.
       cbn. destruct (sender =? owner s); cbn; auto. }
  2: { unfold execute, markLiquidation, onlyOwner, require, bind, gets, ret.
       cbn. destruct (sender =? owner s); cbn; [|repeat split; auto; lia].
       destruct (blacklistedUsers s u); cbn; [repeat split; auto; lia|].
       destruct (liquidationThreshold s <? ratio); cbn;
         repeat split; auto; lia. }
  cbn in Hwf. apply andb_prop in Hwf as [Hwf _].
  unfold execute.
  destruct (dispatch (recipient_call rcp) m s) as [[[] s']|e] eqn:E; cbn;
    [|repeat split; auto; lia].
  unfold dispatch in E.
  destruct (msg_call m) eqn:Ec; cbn in Hwf.
  - apply submitClaim_Ok in E as [Hfresh ->].
    split; [|repeat split; cbn; lia].
    intros u o r Hf.
    rewrite findClaim_registered_other; [assumption|].
    intros [= -> ->]. apply findClaim_Some_claimed in Hf. congruence.
  - rewrite updateVerification_flat, Hm in E. discriminate.
  - rewrite executePayout_flat, Hm in E. discriminate.
  - apply withdraw_Ok in E as (? & Hm' & _). congruence.
  - apply in_uint256_range in Hwf.
    unfold_governance. cbn in E. repeat split_hyp E. injection E as <-.
    cbn. repeat split; auto; lia.
  - apply in_uint256_range in Hwf.
    unfold_governance. cbn in E. repeat split_hyp E. injection E as <-.
    cbn. repeat split; auto; lia.
  - unfold_governance. cbn in E. repeat split_hyp E. injection E as <-.
    cbn. repeat split; auto; lia.
  - unfold_governance. cbn in E. repeat split_hyp E. injection E as <-.
    cbn. repeat split; auto; lia.
  - unfold_governance. cbn in E. repeat split_hyp E. injection E as <-.
    cbn. repeat split; auto; lia.
  - unfold_governance. cbn in E. repeat split_hyp E. injection E as <-.
    cbn. repeat split; auto; lia.
  - unfold_governance. cbn in E. repeat split_hyp E. injection E as <-.
    cbn. repeat split; auto; lia.
  - unfold_governance. cbn in E. repeat split_hyp E. injection E as <-.
    cbn. repeat split; auto; lia.
  - unfold_governance. cbn in E. rewrite Hm in E. discriminate.
  - unfold_governance. cbn in E. rewrite Hm in E. discriminate.
  - unfold_governance. cbn in E. repeat split_hyp E. injection E as <-.
    cbn. repeat split; auto; lia.
  - unfold_governance. cbn in E. repeat split_hyp E. injection E as <-.
    cbn. repeat split; auto; lia.
  - unfold_governance. cbn in E. repeat split_hyp E. injection E as <-.
    cbn. repeat split; auto; lia.
Qed.

Lemma non_validator_cannot_alter_claims_witness :
  findClaim (execute (plain deployer 1700000200
                        (CallUpdateVerification alice 42 1000 90 100 false))
               (approved 100 1000 90 50 50)) alice 42
    = Some {| orderId := 42; amount := 25; timestamp := 1700000000;
              verified := true |} /\
  contractBalance (execute (SyncBalance deployer 7) (approved 100 1000 90 50 50))
    = 7.
Proof.
  split.
  - destruct (non_validator_cannot_alter_claims
                (plain deployer 1700000200
                   (CallUpdateVerification alice 42 1000 90 100 false))
                (approved 100 1000 90 50 50)) as (H & _); [closed | closed |].
    apply H. closed.
  - destruct (non_validator_cannot_alter_claims
                (SyncBalance deployer 7) (approved 100 1000 90 50 50))
      as (_ & _ & _ & H); [closed | closed |].
    exact H.
Defined.

(** X16.  A caller that is not the owner cannot change who the owner is,
    the pause switch, the whitelist, the blacklist, the validator roster or
    the quorum size, whatever entry point it calls (the recipient of a
    transfer it triggers doing nothing but accept or refuse). *)
Theorem non_owner_cannot_govern accepted m s :
  msg_sender m <> owner s ->
  owner (storage_after s (dispatch (passive accepted) m s)) = owner s /\
  paused (storage_after s (dispatch (passive accepted) m s)) = paused s /\
  whitelistedUsers (storage_after s (dispatch (passive accepted) m s))
    = whitelistedUsers s /\
  blacklistedUsers (storage_after s (dispatch (passive accepted) m s))
    = blacklistedUsers s /\
  multiSigWallets (storage_after s (dispatch (passive accepted) m s))
    = multiSigWallets s /\
  minSignatures (storage_after s (dispatch (passive accepted) m s))
    = minSignatures s.
Proof.
  intros Ho. apply Z.eqb_neq in Ho.
  destruct (dispatch (passive accepted) m s) as [[[] s']|e] eqn:E; cbn;
    [|repeat split].
  unfold dispatch in E.
  destruct (msg_call m) eqn:Ec.
  - apply submitClaim_Ok in E as [_ ->]. repeat split.
  - apply updateVerification_Ok in E as (rec & _ & _ & _ & _ & ->). repeat split.
  - apply executePayout_Ok in E
      as (rec & s1 & _ & _ & _ & _ & _ & _ & _ & _ & _ & _ & Hcall & ->).
    injection Hcall as _ <-. repeat split.
  - apply withdraw_Ok in E as (s1 & _ & _ & _ & Hcall & ->).
    injection Hcall as _ <-. repeat split.
  - unfold_governance. cbn in E. rewrite Ho in E. discriminate.
  - unfold_governance. cbn in E. repeat split_hyp E. injection E as <-.
    repeat split.
  - unfold_governance. cbn in E. rewrite Ho in E. discriminate.
  - unfold_governance. cbn in E. rewrite Ho in E. discriminate.
  - unfold_governance. cbn in E. rewrite Ho in E. discriminate.
  - unfold_governance. cbn in E. rewrite Ho in E. discriminate.
  - unfold_governance. cbn in E. rewrite Ho in E. discriminate.
  - unfold_governance. cbn in E. rewrite Ho in E. discriminate.
  - unfold_governance. cbn in E. repeat split_hyp E. injection E as <-.
    repeat split.
  - unfold_governance. cbn in E. repeat split_hyp E. injection E as <-.
    repeat split.
  - unfold_governance. cbn in E. rewrite Ho in E. discriminate.
  - unfold_governance. cbn in E. rewrite Ho in E. discriminate.
  - unfold_governance. cbn in E. rewrite Ho in E. discriminate.
Qed.

Lemma non_owner_cannot_govern_witness :
  paused (storage_after genesis
            (dispatch (passive true)
               {| msg_sender := 10; block_timestamp := 1700000200;
                  msg_call := CallPause |} genesis)) = paused genesis /\
  multiSigWallets (storage_after genesis
            (dispatch (passive true)
               {| msg_sender := 10; block_timestamp := 1700000200;
                  msg_call := CallUpdateMultiSigWallets [10; 10; 10] |} genesis))
    = multiSigWallets genesis.
Proof.
  split.
  - apply (non_owner_cannot_govern true
             {| msg_sender := 10; block_timestamp := 1700000200;
                msg_call := CallPause |} genesis). closed.
  - apply (non_owner_cannot_govern true
             {| msg_sender := 10; block_timestamp := 1700000200;
                msg_call := CallUpdateMultiSigWallets [10; 10; 10] |} genesis).
    closed.
Defined.

(** ** The registry only grows *)

Lemma registry_extends_refl s : registry_extends s s.
Proof. intros u. split; [auto|]. intros i r H. eauto. Qed.

Lemma registry_extends_trans s1 s2 s3 :
  registry_extends s1 s2 -> registry_extends s2 s3 -> registry_extends s1 s3.
Proof.
  intros H12 H23 u. destruct (H12 u) as [A1 B1]. destruct (H23 u) as [A2 B2].
  split; [auto|].
  intros i r H. destruct (B1 i r H) as (r2 & H2 & Ho2 & Ht2).
  destruct (B2 i r2 H2) as (r3 & H3 & Ho3 & Ht3).
  exists r3. repeat split; [assumption | congruence | congruence].
Qed.

Lemma registry_extends_same s s' :
  userPayouts s' = userPayouts s ->
  claimedOrders s' = claimedOrders s ->
  registry_extends s s'.
Proof.
  intros Hu Hc u. rewrite Hu, Hc. apply registry_extends_refl.
Qed.

Lemma registry_extends_registered sender now oid est s :
  registry_extends s (claim_registered sender now oid est s).
Proof.
  intros u. unfold claim_registered. cbn.
  destruct (decide (sender = u)) as [->|Hu].
  - rewrite !fn_lookup_insert. cbn. split.
    + intros o Ho. destruct (decide (oid = o)) as [->|Hne].
      * now rewrite fn_lookup_insert.
      * now rewrite fn_lookup_insert_ne.
    + intros i r H. exists r. repeat split.
      rewrite lookup_app_l; [assumption|]. now apply lookup_lt_Some in H.
  - rewrite !(fn_lookup_insert_ne _ sender u) by assumption.
    split; [auto|]. intros i r H. eauto.
Qed.

Lemma registry_extends_update user index f s :
  (forall r, orderId (f r) = orderId r) ->
  (forall r, timestamp (f r) = timestamp r) ->
  registry_extends s (update_record user index f s).
Proof.
  intros Hid Hts u. unfold update_record. cbn.
  destruct (decide (user = u)) as [->|Hu].
  - rewrite !fn_lookup_insert. cbn. split; [auto|].
    intros i r H. rewrite list_lookup_alter.
    destruct (decide _) as [e|_].
    + rewrite e, H. cbn. eauto.
    + eauto.
  - rewrite !(fn_lookup_insert_ne _ user u) by assumption.
    split; [auto|]. intros i r H. eauto.
Qed.

Lemma dispatch_extends cv m s :
  (forall to value st, registry_extends st (snd (cv to value st))) ->
  registry_extends s (storage_after s (dispatch cv m s)).
Proof.
  intros Hcv.
  destruct (dispatch cv m s) as [[[] s']|e] eqn:E; cbn;
    [|apply registry_extends_refl].
  unfold dispatch in E.
  destruct (msg_call m) eqn:Ec.
  - apply submitClaim_Ok in E as [_ ->]. apply registry_extends_registered.
  - apply updateVerification_Ok in E as (rec & _ & _ & _ & _ & ->).
    unfold claim_verified.
    eapply registry_extends_trans;
      apply registry_extends_update; reflexivity.
  - apply executePayout_Ok in E
      as (rec & s1 & _ & _ & _ & _ & _ & _ & _ & _ & _ & _ & Hcall & ->).
    specialize (Hcv _user (transferAmountOf s (amount rec))
                  (in_flight s (transferAmountOf s (amount rec)))).
    rewrite Hcall in Hcv. cbn in Hcv.
    eapply registry_extends_trans;
      [apply (registry_extends_same s
                (in_flight s (transferAmountOf s (amount rec)))); reflexivity|].
    eapply registry_extends_trans; [exact Hcv|].
    now apply registry_extends_same.
  - apply withdraw_Ok in E as (s1 & _ & _ & _ & Hcall & ->).
    specialize (Hcv (owner s) _amount (in_flight s _amount)).
    rewrite Hcall in Hcv. cbn in Hcv.
    eapply registry_extends_trans;
      [apply (registry_extends_same s (in_flight s _amount)); reflexivity|].
    eapply registry_extends_trans; [exact Hcv|].
    now apply registry_extends_same.
  - unfold_governance. cbn in E. repeat split_hyp E. injection E as <-.
    now apply registry_extends_same.
  - unfold_governance. cbn in E. repeat split_hyp E. injection E as <-.
    now apply registry_extends_same.
  - unfold_governance. cbn in E. repeat split_hyp E. injection E as <-.
    now apply registry_extends_same.
  - unfold_governance. cbn in E. repeat split_hyp E. injection E as <-.
    now apply registry_extends_same.
  - unfold_governance. cbn in E. repeat split_hyp E. injection E as <-.
    now apply registry_extends_same.
  - unfold_governance. cbn in E. repeat split_hyp E. injection E as <-.
    now apply registry_extends_same.
  - unfold_governance. cbn in E. repeat split_hyp E. injection E as <-.
    now apply registry_extends_same.
  - unfold_governance. cbn in E. repeat split_hyp E. injection E as <-.
    now apply registry_extends_same.
  - unfold_governance. cbn in E. repeat split_hyp E. injection E as <-.
    now apply registry_extends_same.
  - unfold_governance. cbn in E. repeat split_hyp E. injection E as <-.
    now apply registry_extends_same.
  - unfold_governance. cbn in E. repeat split_hyp E. injection E as <-.
    now apply registry_extends_same.
  - unfold_governance. cbn in E. repeat split_hyp E. injection E as <-.
    now apply registry_extends_same.
  - unfold_governance. cbn in E. repeat split_hyp E. injection E as <-.
    now apply registry_extends_same.
Qed.

Lemma run_callbacks_extends ms : forall s,
  registry_extends s (run_callbacks ms s).
Proof.
  unfold run_callbacks.
  induction ms as [|m ms IH]; intros s; cbn; [apply registry_extends_refl|].
  eapply registry_extends_trans; [|apply IH].
  apply dispatch_extends. intros to value st. apply registry_extends_refl.
Qed.

(** X17.  Nothing ever leaves the registry: over any sequence of
    transactions, whatever their recipients do while they hold control, a
    claimed flag that is set stays set and every record stays at its
    position in its user's array with the same order id and timestamp.
    There is no entry point that deletes, moves or re-labels a claim. *)
Theorem registry_only_grows ts : forall s u,
  (forall o, isOrderClaimed u o s = true -> isOrderClaimed u o (run ts s) = true) /\
  (forall i r, getUserPayouts u s !! i = Some r ->
     exists r', getUserPayouts u (run ts s) !! i = Some r' /\
                orderId r' = orderId r /\ timestamp r' = timestamp r).
Proof.
  assert (H : forall s, registry_extends s (run ts s)).
  { unfold run. induction ts as [|t ts IH]; intros s; cbn;
      [apply registry_extends_refl|].
    eapply registry_extends_trans; [|apply IH].
    unfold execute. destruct t as [m r|sender chainBalance|sender u ratio].
    - apply dispatch_extends.
      intros to value st. cbn. apply run_callbacks_extends.
    - unfold syncBalance, onlyOwner, bind, gets, require, modify, ret, fail.
      destruct (sender =? owner s); cbn;
        [now apply registry_extends_same | apply registry_extends_refl].
    - unfold markLiquidation, onlyOwner, bind, gets, require, modify, ret, fail.
      destruct (sender =? owner s); cbn; [|apply registry_extends_refl].
      destruct (negb (blacklistedUsers s u)); cbn; [|apply registry_extends_refl].
      destruct (liquidationThreshold s <? ratio); cbn;
        apply registry_extends_refl. }
  intros s u. rewrite !getUserPayouts_records. apply (H s u).
Qed.

Lemma registry_only_grows_witness :
  isOrderClaimed alice 42
    (run [plain 10 1700000200 (CallUpdateVerification alice 42 1000 90 0 false);
          plain 10 1700000300 (CallExecutePayout alice 42);
          plain deployer 1700000400 (CallRemoveFromWhitelist alice);
          plain deployer 1700000500 (CallAddToBlacklist alice)]
         (approved 100 1000 90 50 50)) = true /\
  exists r',
    getUserPayouts alice
      (run [plain 10 1700000200 (CallUpdateVerification alice 42 1000 90 0 false);
            plain 10 1700000300 (CallExecutePayout alice 42);
            plain deployer 1700000400 (CallRemoveFromWhitelist alice);
            plain deployer 1700000500 (CallAddToBlacklist alice)]
           (approved 100 1000 90 50 50)) !! 0%nat = Some r' /\
    orderId r' = 42 /\ timestamp r' = 1700000000.
Proof.
  destruct (registry_only_grows
              [plain 10 1700000200 (CallUpdateVerification alice 42 1000 90 0 false);
               plain 10 1700000300 (CallExecutePayout alice 42);
               plain deployer 1700000400 (CallRemoveFromWhitelist alice);
               plain deployer 1700000500 (CallAddToBlacklist alice)]
              (approved 100 1000 90 50 50) alice) as [H1 H2].
  split; [apply H1; closed|].
  apply (H2 0%nat {| orderId := 42; amount := 25; timestamp := 1700000000;
                     verified := true |}). closed.
Defined.

(** ** Ledger and chain balance *)

(** X18.  [syncBalance] by the owner makes the ledger equal to the balance
    the chain holds for the contract, whatever the ledger said before, so
    that [verifyBalance] holds afterwards; for any other caller it reverts
    and the ledger keeps its value. *)
Theorem syncBalance_then_verifyBalance sender chainBalance s :
  (sender = owner s ->
   exists s',
     syncBalance sender chainBalance s = Ok (tt, s') /\
     contractBalance s' = chainBalance /\
     verifyBalance chainBalance s' = true) /\
  (sender <> owner s ->
   syncBalance sender chainBalance s = Err (Revert "Not owner")).
Proof.
  unfold syncBalance, verifyBalance, onlyOwner, bind, gets, require, modify,
    ret, fail.
  split.
  - intros ->. rewrite Z.eqb_refl. eexists. split; [reflexivity|].
    cbn. now rewrite Z.eqb_refl.
  - intros H. now rewrite (proj2 (Z.eqb_neq _ _) H).
Qed.

Lemma syncBalance_then_verifyBalance_witness :
  (exists s',
     syncBalance deployer 7 (funded 100) = Ok (tt, s') /\
     contractBalance s' = 7 /\
     verifyBalance 7 s' = true) /\
  syncBalance 10 7 (funded 100) = Err (Revert "Not owner").
Proof.
  split.
  - apply (syncBalance_then_verifyBalance deployer 7 (funded 100)). closed.
  - apply (syncBalance_then_verifyBalance 10 7 (funded 100)). closed.
Defined.

(** * More on the first revision *)

Lemma scanDown_spec test rs n :
  match V1.scanDown test rs n with
  | Some i =>
      (i < n)%nat /\
      (exists r, rs !! i = Some r /\ test r = true) /\
      (forall j r, (i < j < n)%nat -> rs !! j = Some r -> test r = false)
  | None => forall j r, (j < n)%nat -> rs !! j = Some r -> test r = false
  end.
Proof.
  induction n as [|n IH]; cbn; [intros; lia|].
  destruct (rs !! n) as [r|] eqn:E.
  - destruct (test r) eqn:Et.
    + split; [lia|]. split; [eauto|]. intros; lia.
    + destruct (V1.scanDown test rs n) as [i|].
      * destruct IH as (Hi & Hr & Hlast). split; [lia|]. split; [assumption|].
        intros j r' Hj Hl. destruct (decide (j = n)) as [->|];
          [congruence | apply (Hlast j); [lia|assumption]].
      * intros j r' Hj Hl. destruct (decide (j = n)) as [->|];
          [congruence | apply (IH j); [lia|assumption]].
  - destruct (V1.scanDown test rs n) as [i|].
    + destruct IH as (Hi & Hr & Hlast). split; [lia|]. split; [assumption|].
      intros j r' Hj Hl. destruct (decide (j = n)) as [->|];
        [congruence | apply (Hlast j); [lia|assumption]].
    + intros j r' Hj Hl. destruct (decide (j = n)) as [->|];
        [congruence | apply (IH j); [lia|assumption]].
Qed.

(** X19.  The backward scan of the first revision stops at the last record
    that passes its test: started at the end of the array it returns index
    [i] exactly when the record at [i] passes and no record after [i]
    does, and it finds nothing exactly when no record of the array
    passes. *)
Theorem scanDown_finds_last_match test rs :
  (forall i,
     V1.scanDown test rs (length rs) = Some i
     <-> (exists r, rs !! i = Some r /\ test r = true) /\
         (forall j r, (i < j)%nat -> rs !! j = Some r -> test r = false)) /\
  (V1.scanDown test rs (length rs) = None
     <-> forall r, r ∈ rs -> test r = false).
Proof.
  pose proof (scanDown_spec test rs (length rs)) as H.
  split; [intros i; split|split].
  - intros E. rewrite E in H. destruct H as (_ & Hr & Hlast).
    split; [assumption|]. intros j r Hj Hl.
    apply (Hlast j); [|assumption]. apply lookup_lt_Some in Hl. lia.
  - intros [(r & Hr & Ht) Hlast].
    destruct (V1.scanDown test rs (length rs)) as [k|].
    + destruct H as (_ & (rk & Hk & Htk) & Hk').
      f_equal. destruct (lt_eq_lt_dec k i) as [[Hlt| ->]|Hgt]; [|reflexivity|].
      * apply lookup_lt_Some in Hr as Hb. specialize (Hk' i r). 
        rewrite Hk' in Ht; [discriminate|lia|assumption].
      * rewrite (Hlast k rk) in Htk; [discriminate|lia|assumption].
    + apply lookup_lt_Some in Hr as Hb.
      rewrite (H i r) in Ht; [discriminate|lia|assumption].
  - intros E r Hr. rewrite E in H.
    apply list_elem_of_lookup_1 in Hr as [j Hj].
    apply (H j); [|assumption]. now apply lookup_lt_Some in Hj.
  - intros Hall. destruct (V1.scanDown test rs (length rs)) as [k|]; [|reflexivity].
    destruct H as (_ & (rk & Hk & Htk) & _).
    rewrite (Hall rk) in Htk; [discriminate|].
    eapply list_elem_of_lookup_2. exact Hk.
Qed.

Lemma scanDown_finds_last_match_witness :
  V1.scanDown (fun r => V1.orderId r =? 42)
    [ {| V1.orderId := 42; V1.amount := 1; V1.timestamp := 0; V1.verified := false |};
      {| V1.orderId := 43; V1.amount := 2; V1.timestamp := 0; V1.verified := false |} ]
    2 = Some 0%nat.
Proof.
  apply (scanDown_finds_last_match (fun r => V1.orderId r =? 42)
           [ {| V1.orderId := 42; V1.amount := 1; V1.timestamp := 0;
                V1.verified := false |};
             {| V1.orderId := 43; V1.amount := 2; V1.timestamp := 0;
                V1.verified := false |} ]).
  split.
  - eexists. split; reflexivity.
  - intros [|[|[|j]]] r Hj Hl; try lia; cbn in Hl; try discriminate Hl.
    now injection Hl as <-.
Defined.

(** X20.  In the first revision the amount of a payout is the one its
    caller names, not the one on record: once an order of a whitelisted
    user has a verified record, the owner can settle it for any amount the
    ledger covers, and the ledger goes down by that amount less the fee. *)
Theorem first_revision_pays_named_amount user oid a s rec :
  V1.locked s = false ->
  V1.whitelistedUsers s user = true ->
  V1.blacklistedUsers s user = false ->
  V1.claimedOrders s user oid = true ->
  rec ∈ V1.userPayouts s user ->
  V1.orderId rec = oid ->
  V1.verified rec = true ->
  0 < a <= V1.contractBalance s ->
  0 <= V1.feePercentage s <= 100 ->
  a * V1.feePercentage s <= MAX_UINT256 ->
  V1.executePayout (fun _ _ st => (true, st)) (V1.owner s) user oid a s
    = Ok (tt, V1.set_contractBalance
                (V1.contractBalance s - (a - a * V1.feePercentage s / 100)) s).
Proof.
  intros Hlk Hw Hb Hc Hin Ho Hv Ha Hfee Hfit.
  assert (Hfound : exists i,
            V1.scanDown (fun r => (V1.orderId r =? oid) && V1.verified r)
              (V1.userPayouts s user) (length (V1.userPayouts s user)) = Some i).
  { pose proof (scanDown_spec (fun r => (V1.orderId r =? oid) && V1.verified r)
                  (V1.userPayouts s user) (length (V1.userPayouts s user))) as E.
    destruct (V1.scanDown _ _ _) as [i|]; [eauto|].
    apply list_elem_of_lookup_1 in Hin as [j Hj].
    specialize (E j rec (lookup_lt_Some _ _ _ Hj) Hj). cbn in E.
    rewrite Ho, Z.eqb_refl, Hv in E. discriminate. }
  destruct Hfound as [i Hi].
  assert (Hlen : (0 <? Z.of_nat (length (V1.userPayouts s user))) = true).
  { apply Z.ltb_lt. apply list_elem_of_lookup_1 in Hin as [j Hj].
    apply lookup_lt_Some in Hj. lia. }
  assert (0 <= a * V1.feePercentage s / 100 <= a).
  { split; [apply Z.div_pos; nia|]. apply Z.div_le_upper_bound; nia. }
  unfold_first_revision. cbn.
  rewrite Z.eqb_refl. cbn. rewrite Hlk. cbn. rewrite Hw. cbn. rewrite Hb. cbn.
  rewrite Hc. cbn.
  rewrite (proj2 (Z.ltb_lt 0 a)) by lia. cbn.
  rewrite (proj2 (Z.leb_le a _)) by lia. cbn.
  rewrite Hlen. cbn. rewrite Hi. cbn.
  rewrite (proj2 (Z.leb_le _ MAX_UINT256)) by lia. cbn.
  rewrite (proj2 (Z.leb_le (a * V1.feePercentage s / 100) a)) by lia. cbn.
  rewrite (proj2 (Z.leb_le (a - a * V1.feePercentage s / 100) _)) by lia. cbn.
  destruct s; cbn in *. now subst.
Qed.

Lemma first_revision_pays_named_amount_witness :
  V1.executePayout (fun _ _ st => (true, st)) (V1.owner V1.approved) 7 42 100
    V1.approved
  = Ok (tt, V1.set_contractBalance
              (V1.contractBalance V1.approved
               - (100 - 100 * V1.feePercentage V1.approved / 100)) V1.approved).
Proof.
  apply (first_revision_pays_named_amount 7 42 100 V1.approved
           {| V1.orderId := 42; V1.amount := 25; V1.timestamp := 1700000000;
              V1.verified := true |}); try closed.
  cbn. repeat constructor.
Defined.

(** * The customer web app *)

Import CustomerWeb.

Arguments js : simpl never.
Arguments translateStatus : simpl never.

(** X21.  [shortenAddress] leaves a string of at most 10 code units as it
    is and cuts a longer one down to 13: its first six code units, three
    dots, its last four.  Shortening twice is shortening once. *)
Theorem shortenAddress_idempotent a :
  shortenAddress (shortenAddress a) = shortenAddress a /\
  ((length a <= 10)%nat -> shortenAddress a = a) /\
  ((10 < length a)%nat ->
     length (shortenAddress a) = 13%nat /\
     take 6 (shortenAddress a) = take 6 a /\
     drop 9 (shortenAddress a) = drop (length a - 4) a).
Proof.
  unfold shortenAddress.
  destruct (length a <=? 10)%nat eqn:E.
  - rewrite E. apply Nat.leb_le in E.
    split; [reflexivity|]. split; [reflexivity|]. intros; lia.
  - apply Nat.leb_gt in E.
    assert (L6 : length (take 6 a) = 6%nat) by (rewrite length_take; lia).
    assert (L4 : length (drop (length a - 4) a) = 4%nat)
      by (rewrite length_drop; lia).
    assert (T : take 6 (take 6 a ++ js "..." ++ drop (length a - 4) a) = take 6 a).
    { rewrite take_app_le by lia. rewrite take_ge by lia. reflexivity. }
    assert (D : drop 9 (take 6 a ++ js "..." ++ drop (length a - 4) a)
                = drop (length a - 4) a).
    { rewrite app_assoc. rewrite drop_app_length'; [reflexivity|].
      rewrite length_app, L6. reflexivity. }
    assert (L : length (take 6 a ++ js "..." ++ drop (length a - 4) a) = 13%nat).
    { rewrite !length_app, L6, L4. reflexivity. }
    rewrite L. cbn [Nat.leb]. change (13 - 4)%nat with 9%nat.
    rewrite T, D.
    split; [reflexivity|]. split; [intros; lia|]. intros _. auto.
Qed.

Lemma shortenAddress_idempotent_witness :
  shortenAddress (js "0x52908400098527886E0F7030069857D2E4169EE7")
    = js "0x5290...9EE7" /\
  shortenAddress (js "0x5290...9EE7") = js "0x5290...9EE7" /\
  shortenAddress (js "0x2105") = js "0x2105".
Proof.
  destruct (shortenAddress_idempotent
              (js "0x52908400098527886E0F7030069857D2E4169EE7")) as (H1 & _ & _).
  destruct (shortenAddress_idempotent (js "0x2105")) as (_ & H2 & _).
  split; [closed|]. split; [|apply H2; vm_compute; lia].
  change (js "0x5290...9EE7")
    with (shortenAddress (js "0x52908400098527886E0F7030069857D2E4169EE7")).
  exact H1.
Defined.

Lemma str_eqb_refl a : str_eqb a a = true.
Proof. unfold str_eqb. now apply bool_decide_eq_true. Qed.

Lemma str_eqb_neq a b : a <> b -> str_eqb a b = false.
Proof. unfold str_eqb. now apply bool_decide_eq_false. Qed.

(** X22.  A language stored with [persistLanguage] is the one
    [detectLanguage] returns afterwards, whatever the browser language is,
    and storing it touches no other key of the storage.  A stored value
    that is neither "zh" nor "en" counts for nothing: detection falls back
    on the browser language as if nothing were stored. *)
Theorem persisted_language_is_detected toLowerCase lang storage nav :
  detectLanguage toLowerCase (persistLanguage lang storage) nav = lang /\
  (forall key, key <> STORAGE_KEY -> persistLanguage lang storage key = storage key) /\
  (forall stored,
     storage STORAGE_KEY = Some stored ->
     stored <> js "zh" -> stored <> js "en" ->
     detectLanguage toLowerCase storage nav
       = detectLanguage toLowerCase (fun _ => None) nav).
Proof.
  unfold detectLanguage, persistLanguage, setItem. split; [|split].
  - rewrite str_eqb_refl. now destruct lang.
  - intros key Hk. now rewrite str_eqb_neq.
  - intros stored Hs Hz He. rewrite Hs.
    now rewrite (str_eqb_neq _ _ Hz), (str_eqb_neq _ _ He).
Qed.

Lemma persisted_language_is_detected_witness :
  detectLanguage lowerAscii (persistLanguage en (fun _ => None)) (js "zh-CN") = en /\
  detectLanguage lowerAscii (fun _ => Some (js "fr")) (js "ZH-tw")
    = detectLanguage lowerAscii (fun _ => None) (js "ZH-tw").
Proof.
  destruct (persisted_language_is_detected lowerAscii en (fun _ => None)
              (js "zh-CN")) as (H1 & _ & _).
  destruct (persisted_language_is_detected lowerAscii en
              (fun _ => Some (js "fr")) (js "ZH-tw")) as (_ & _ & H3).
  split; [exact H1|]. apply (H3 (js "fr")); [reflexivity | closed | closed].
Defined.

Lemma updateStatusTarget_twice m1 m2 w :
  updateStatusTarget m2 (updateStatusTarget m1 w) = updateStatusTarget m2 w.
Proof.
  unfold updateStatusTarget. cbn. f_equal.
  rewrite map_map. apply map_ext. reflexivity.
Qed.

(** X23.  The wrong-network warning never stays on screen.
    [handleChainChanged] with a chain other than the app's writes the
    warning and disables signing, and then calls [render], which writes
    every one of those fields again: the widget ends exactly as [render]
    alone leaves it (the status elements too, unless a connection is being
    approved), so a connected wallet keeps its sign button enabled under
    the line "Network: ..." of the app's own chain. *)
Theorem wrong_network_warning_is_overwritten toLowerCase network hasProvider
    chain w :
  wrongChain toLowerCase network chain = true ->
  state (handleChainChanged toLowerCase network hasProvider chain w)
    = state (render network hasProvider w) /\
  connectText (handleChainChanged toLowerCase network hasProvider chain w)
    = connectText (render network hasProvider w) /\
  connectDisabled (handleChainChanged toLowerCase network hasProvider chain w)
    = connectDisabled (render network hasProvider w) /\
  signDisabled (handleChainChanged toLowerCase network hasProvider chain w)
    = signDisabled (render network hasProvider w) /\
  helperText (handleChainChanged toLowerCase network hasProvider chain w)
    = helperText (render network hasProvider w) /\
  helperText (handleChainChanged toLowerCase network hasProvider chain w)
    <> WRONG_NETWORK /\
  (hasProvider = true -> status (state w) = connected ->
     signDisabled (handleChainChanged toLowerCase network hasProvider chain w)
       = false /\
     helperText (handleChainChanged toLowerCase network hasProvider chain w)
       = js "Network: " ++ chainName network) /\
  (hasProvider = false \/ status (state w) <> connecting ->
     statusTargets (handleChainChanged toLowerCase network hasProvider chain w)
       = statusTargets (render network hasProvider w)).
Proof.
  intros Hwrong. unfold handleChainChanged. rewrite Hwrong.
  unfold render, updateStatusTarget.
  destruct hasProvider; cbn [negb].
  - cbn. destruct (status (state w)) eqn:Es; cbn;
      repeat split; try discriminate; try congruence;
      solve [ intros [?|?]; congruence
            | intros _; rewrite map_map; apply map_ext; reflexivity ].
  - cbn. repeat split; try discriminate.
    intros _. rewrite map_map. apply map_ext. reflexivity.
Qed.

Lemma wrong_network_warning_is_overwritten_witness :
  signDisabled
    (handleChainChanged lowerAscii BASE_MAINNET true (Some (js "0x1"))
       {| state := {| status := connected; address := Some (js "0xABCDEF0123456789");
                      chainId := Some (js "0x2105"); error := None |};
          connectText := []; connectDisabled := false; signDisabled := false;
          helperText := [];
          statusTargets := [ {| dataset_lang := Some (js "zh"); textContent := [] |} ];
          callbackLog := [] |}) = false /\
  helperText
    (handleChainChanged lowerAscii BASE_MAINNET true (Some (js "0x1"))
       {| state := {| status := connected; address := Some (js "0xABCDEF0123456789");
                      chainId := Some (js "0x2105"); error := None |};
          connectText := []; connectDisabled := false; signDisabled := false;
          helperText := [];
          statusTargets := [ {| dataset_lang := Some (js "zh"); textContent := [] |} ];
          callbackLog := [] |}) = js "Network: Base Mainnet".
Proof.
  destruct (wrong_network_warning_is_overwritten lowerAscii BASE_MAINNET true
              (Some (js "0x1"))
              {| state := {| status := connected;
                             address := Some (js "0xABCDEF0123456789");
                             chainId := Some (js "0x2105"); error := None |};
                 connectText := []; connectDisabled := false; signDisabled := false;
                 helperText := [];
                 statusTargets := [ {| dataset_lang := Some (js "zh");
                                       textContent := [] |} ];
                 callbackLog := [] |})
    as (_ & _ & _ & _ & _ & _ & H & _); [closed|].
  apply H; reflexivity.
Defined.

Lemma startsWith_app p a : startsWith (p ++ a) p = true.
Proof.
  induction p as [|x p IH]; cbn; [now destruct a|]. now rewrite Z.eqb_refl.
Qed.

Lemma replaceFirst_prefix p r a : replaceFirst p r (p ++ a) = r ++ a.
Proof.
  destruct (p ++ a) as [|c s] eqn:E; cbn [replaceFirst]; rewrite <- E;
    now rewrite startsWith_app, drop_app_length.
Qed.

Lemma translateStatus_connected a lang :
  translateStatus (js "Connected to " ++ a) lang
    = if str_eqb lang (js "zh") then ZH_CONNECTED ++ a else js "Connected to " ++ a.
Proof.
  unfold translateStatus. destruct (str_eqb lang (js "zh")); [|reflexivity].
  cbn [negb]. now rewrite startsWith_app, replaceFirst_prefix.
Qed.

(** X24.  With a wallet provider present, [handleAccountsChanged] leaves
    the widget connected to the first account it is given: signing is
    enabled, the connect button shows the shortened account, and every
    status element shows "Connected to <account>", in Chinese
    ("已连接 <account>") where the element asks for "zh".  With no account
    it leaves the widget disconnected, signing disabled, and it has told
    the [onDisconnected] callback. *)
Theorem accounts_changed_sets_the_widget network accounts w :
  match accounts with
  | Some (first :: _) =>
      status (state (handleAccountsChanged network true accounts w)) = connected /\
      address (state (handleAccountsChanged network true accounts w)) = Some first /\
      signDisabled (handleAccountsChanged network true accounts w) = false /\
      connectText (handleAccountsChanged network true accounts w)
        = shortenAddress first /\
      callbackLog (handleAccountsChanged network true accounts w) = callbackLog w /\
      textContent <$> statusTargets (handleAccountsChanged network true accounts w)
        = (fun t =>
             if str_eqb (default (js "en") (dataset_lang t)) (js "zh")
             then ZH_CONNECTED ++ first
             else js "Connected to " ++ first) <$> statusTargets w
  | _ =>
      status (state (handleAccountsChanged network true accounts w)) = disconnected /\
      address (state (handleAccountsChanged network true accounts w)) = None /\
      signDisabled (handleAccountsChanged network true accounts w) = true /\
      callbackLog (handleAccountsChanged network true accounts w)
        = callbackLog w ++ [OnDisconnected]
  end.
Proof.
  unfold handleAccountsChanged, render.
  destruct accounts as [[|first rest]|]; cbn; repeat split.
  rewrite <- list_fmap_compose. apply list_fmap_ext.
  intros i t _. cbn.
  rewrite (translateStatus_connected first).
  now destruct (dataset_lang t).
Qed.
